(** * MedSo dev content store: a shallow embedding of the dev API

    The development follows the dev-only HTTP endpoints registered by
    [registerRoutes] (token gate, [/dev/save-json], [/dev/upload],
    [DELETE /dev/upload]), the older stand-alone dev server with the same
    save endpoint, and the client helpers that call them ([saveToJson],
    [loadJsonData], the drag-reorder mutations of the admin page).

    Conventions of the embedding:
    - a JavaScript value that came out of [express.json()] is a [json] term;
      [undefined] is [None] of [option json];
    - JSON numbers are the integers ([Z]); fractional numbers and the
      floating-point range are outside the model;
    - an exception is a [Throw] of the [result] monad, and a handler's
      [try]/[catch] turns it into a 500 response;
    - the file system is a finite map from absolute, normalised paths
      (lists of segments) to files and directories. *)

From Stdlib Require Import ZArith Ascii List Lia Sorted Permutation.
From Stdlib Require String OrderedTypeEx.
From stdpp Require Import base option list gmap strings pretty.

Set Warnings "-register-all".

(** ** String primitives of the JavaScript runtime *)

(** [s.startsWith(p)] *)
Fixpoint startsWith (s p : string) {struct p} : bool :=
  match p with
  | EmptyString => true
  | String c p' =>
      match s with
      | EmptyString => false
      | String d s' => if Ascii.eqb c d then startsWith s' p' else false
      end
  end.

(** [s.includes(p)] *)
Fixpoint includes (s p : string) : bool :=
  startsWith s p ||
  match s with
  | EmptyString => false
  | String _ s' => includes s' p
  end.

(** [s.endsWith(p)] *)
Definition endsWith (s p : string) : bool :=
  let n := String.length s in
  let m := String.length p in
  (m <=? n)%nat && String.eqb (String.substring (n - m) m s) p.

(** [c] is one of [a-z0-9]. *)
Definition is_lower_alnum (c : ascii) : bool :=
  let n := nat_of_ascii c in
  ((97 <=? n) && (n <=? 122) || (48 <=? n) && (n <=? 57))%nat.

(** [s.toLowerCase()] on the ASCII letters; other bytes are kept. *)
Definition lower_ascii (c : ascii) : ascii :=
  let n := nat_of_ascii c in
  if ((65 <=? n) && (n <=? 90))%nat then ascii_of_nat (n + 32) else c.

Fixpoint toLowerCase (s : string) : string :=
  match s with
  | EmptyString => EmptyString
  | String c s' => String (lower_ascii c) (toLowerCase s')
  end.

(** [s.replace(/[^a-z0-9]+/g, '-')]: every maximal run of characters
    outside [a-z0-9] becomes one dash.  [in_run] records that the previous
    character already belonged to such a run. *)
Fixpoint dash_runs (in_run : bool) (s : string) : string :=
  match s with
  | EmptyString => EmptyString
  | String c s' =>
      if is_lower_alnum c then String c (dash_runs false s')
      else if in_run then dash_runs true s'
      else String "-"%char (dash_runs true s')
  end.

(** [/jpeg|jpg|png|webp|gif/.test(s)]: the pattern has no anchors, so the
    test succeeds as soon as one alternative occurs anywhere in [s]. *)
Definition allowedTypes_test (s : string) : bool :=
  includes s "jpeg" || includes s "jpg" || includes s "png"
  || includes s "webp" || includes s "gif".

(** ** Paths ([path.join], [path.extname], [path.basename]) *)

(** [s.split("/")] *)
Fixpoint split_slash (s : string) : list string :=
  match s with
  | EmptyString => [EmptyString]
  | String c s' =>
      if Ascii.eqb c "/"%char then EmptyString :: split_slash s'
      else match split_slash s' with
           | seg :: rest => String c seg :: rest
           | [] => [String c EmptyString]
           end
  end.

(** An absolute normalised path: its segments below the root. *)
Abbreviation path := (list string).

(** POSIX normalisation of the segments [segs] appended to the directory
    whose segments, innermost first, are [stack]: empty and ["."] segments
    vanish, [".."] climbs one directory (and stays at the root). *)
Fixpoint normalize_onto (stack : list string) (segs : list string) : path :=
  match segs with
  | [] => rev stack
  | seg :: rest =>
      if String.eqb seg "" || String.eqb seg "." then normalize_onto stack rest
      else if String.eqb seg ".." then normalize_onto (tail stack) rest
      else normalize_onto (seg :: stack) rest
  end.

(** [path.join(base, rel)] for an absolute normalised [base]. *)
Definition path_join (base : path) (rel : string) : path :=
  normalize_onto (rev base) (split_slash rel).

(** The last component of a file name (the part after the last slash). *)
Definition last_component (name : string) : string :=
  List.last (split_slash name) EmptyString.

(** Position of the last dot of [s], counted from the start. *)
Fixpoint last_dot (s : string) : option nat :=
  match s with
  | EmptyString => None
  | String c s' =>
      match last_dot s' with
      | Some i => Some (S i)
      | None => if Ascii.eqb c "."%char then Some 0%nat else None
      end
  end.

(** [path.extname(name)]: from the last dot of the last component to its
    end; empty when there is no dot, when the only dot is the first
    character, and for [".."]. *)
Definition extname (name : string) : string :=
  let part := last_component name in
  match last_dot part with
  | None => EmptyString
  | Some O => EmptyString
  | Some i =>
      if String.eqb part ".." then EmptyString
      else String.substring i (String.length part - i) part
  end.

(** [path.basename(name, ext)]: the last component without the suffix
    [ext], unless the component is the suffix itself. *)
Definition basename (name ext : string) : string :=
  let part := last_component name in
  if endsWith part ext && negb (String.eqb part ext)
  then String.substring 0 (String.length part - String.length ext) part
  else part.

(** ** JSON values and the JavaScript operators the handlers apply *)

Inductive json : Type :=
  | JNull
  | JBool (b : bool)
  | JNum (n : Z)
  | JStr (s : string)
  | JArr (items : list json)
  | JObj (props : list (string * json)).

(** An object type of the client ([Member], [MemberClass], ...): its
    properties in insertion order. *)
Abbreviation obj := (list (string * json)).

Fixpoint assoc (k : string) (props : obj) : option json :=
  match props with
  | [] => None
  | (k', v) :: rest => if String.eqb k k' then Some v else assoc k rest
  end.

(** [{...props, k: v}]: an existing key keeps its place, a new key goes
    last. *)
Fixpoint assign (k : string) (v : json) (props : obj) : obj :=
  match props with
  | [] => [(k, v)]
  | (k', v') :: rest =>
      if String.eqb k k' then (k, v) :: rest else (k', v') :: assign k v rest
  end.

Inductive exn : Type :=
  | TypeError
  | SyntaxError
  | IOError
  | FileFilterError
  | LimitFileSize
  | FetchError.

Inductive result (A : Type) : Type :=
  | Return (a : A)
  | Throw (e : exn).
Arguments Return {A} a.
Arguments Throw {A} e.

Definition bind {A B : Type} (m : result A) (k : A -> result B) : result B :=
  match m with
  | Return a => k a
  | Throw e => Throw e
  end.

Notation "'let*' x ':=' m 'in' k" := (bind m (fun x => k))
  (at level 10, x name, m at level 100, k at level 200).

(** [v.k] for [k] one of [displayOrder], [name], [title]: reading a
    property of [null] throws, an object answers with its own property,
    and no other JSON value has one of these three properties. *)
Definition get_prop (v : json) (k : string) : result (option json) :=
  match v with
  | JNull => Throw TypeError
  | JObj props => Return (assoc k props)
  | _ => Return None
  end.

(** Truthiness. *)
Definition truthy (v : option json) : bool :=
  match v with
  | None => false
  | Some JNull => false
  | Some (JBool b) => b
  | Some (JNum n) => negb (n =? 0)%Z
  | Some (JStr s) => negb (String.eqb s "")
  | Some (JArr _) => true
  | Some (JObj _) => true
  end.

(** [v || d] *)
Definition or_else (v : option json) (d : json) : json :=
  match v with
  | Some x => if truthy v then x else d
  | None => d
  end.

(** [v || w], both possibly [undefined] *)
Definition js_or (v w : option json) : option json :=
  if truthy v then v else w.

(** [x === y].  Arrays and objects are compared by identity, and two
    values parsed out of one request body are never the same object. *)
Definition strict_equal (x y : option json) : bool :=
  match x, y with
  | None, None => true
  | Some JNull, Some JNull => true
  | Some (JBool a), Some (JBool b) => Bool.eqb a b
  | Some (JNum a), Some (JNum b) => (a =? b)%Z
  | Some (JStr a), Some (JStr b) => String.eqb a b
  | _, _ => false
  end.

(** [Array.isArray(v)] *)
Definition isArray (v : json) : bool :=
  match v with JArr _ => true | _ => false end.

(** ** The file system *)

Inductive node (data : Type) : Type :=
  | File (d : data)
  | Dir.
Arguments File {data} d.
Arguments Dir {data}.

Abbreviation fsys data := (gmap (list string) (node data)).

Section FileSystem.
Context {data : Type}.
Implicit Types (fs : fsys data) (p : path).

Definition is_dir fs p : bool :=
  match p with
  | [] => true
  | _ => match fs !! p with Some Dir => true | _ => false end
  end.

Definition parent p : path := removelast p.

(** [fs.access(p)]: true when something exists at [p]. *)
Definition access fs p : bool :=
  match p with
  | [] => true
  | _ => match fs !! p with Some _ => true | None => false end
  end.

(** [fs.writeFile(p, d)]: whole-file overwrite; the parent directory
    must exist and [p] must not be a directory. *)
Definition writeFile fs p (d : data) : result (fsys data) :=
  if is_dir fs (parent p) && negb (is_dir fs p)
  then Return (<[p := File d]> fs)
  else Throw IOError.

(** [fs.unlink(p)]: removes a file, fails on anything else. *)
Definition unlink fs p : result (fsys data) :=
  match fs !! p with
  | Some (File _) => Return (delete p fs)
  | _ => Throw IOError
  end.

(** [fs.mkdir(p, { recursive: true })], creating the missing
    directories below [done] along [todo]. *)
Fixpoint mkdir_from fs (done : path) (todo : list string) : result (fsys data) :=
  match todo with
  | [] => Return fs
  | seg :: rest =>
      let d := done ++ [seg] in
      match fs !! d with
      | Some (File _) => Throw IOError
      | _ => mkdir_from (<[d := Dir]> fs) d rest
      end
  end.

Definition mkdir_p fs p : result (fsys data) := mkdir_from fs [] p.
End FileSystem.

(** ** HTTP responses *)

Inductive body : Type :=
  | Ok_                         (* { ok: true } *)
  | OkCount (count : nat)       (* { ok: true, count } *)
  | OkPath (publicPath : string) (* { ok: true, publicPath } *)
  | Error (msg : string)        (* { error: msg } *)
  | ErrorOf (e : exn).          (* { error: e.message } *)

Record response : Type := Response { status : nat; payload : body }.

Definition programs_limit_msg : string :=
  "Programs are limited to a maximum of 4 items. Please remove some programs before adding new ones.".

Definition filter_msg : string :=
  "Only image files (jpeg, jpg, png, webp, gif) are allowed".

(** ** The dev API *)

Section DevApi.
(** The runtime the handlers run on.  [text] is what a file holds;
    serialisation, collation and the coercions of non-numbers and
    non-strings belong to the JavaScript engine and stay abstract. *)
Context {text : Type}.
Variable JSON_stringify : json -> text.          (* JSON.stringify(v) *)
Variable JSON_stringify_pretty : json -> text.   (* JSON.stringify(v, null, 2) *)
Variable JSON_parse : text -> option json.       (* None: SyntaxError *)
Variable localeCompare : string -> string -> Z.  (* a.localeCompare(b) *)
Variable coerced_sub : json -> json -> option Z. (* x - y, an operand not a number; None: NaN *)
Variable ToString : json -> string.              (* String(v), v not a string *)
Variable cwd : path.                             (* process.cwd() *)
Variable TOKEN : option string.                  (* process.env.LOCAL_ADMIN_TOKEN *)

Implicit Types (fs : fsys text).

Definition PUBLIC_DIR : path := (cwd ++ ["client"; "public"])%list.
Definition DATA_DIR : path := (cwd ++ ["client"; "public"; "data"])%list.
Definition UPLOAD_DIR : path := (cwd ++ ["client"; "public"; "uploads"])%list.
(** The data directory of the stand-alone dev server. *)
Definition SRC_DATA_DIR : path := (cwd ++ ["client"; "src"; "data"])%list.

(** *** Token gate *)

(** [!TOKEN || req.header("x-admin-token") !== TOKEN] *)
Definition token_rejected (header : option string) : bool :=
  negb (truthy (JStr <$> TOKEN))
  || negb (strict_equal (JStr <$> header) (JStr <$> TOKEN)).

Definition unauthorized : response := Response 401 (Error "unauthorized").

(** [requireDevToken] (and [requireToken] of the stand-alone server)
    in front of a handler. *)
Definition requireDevToken (header : option string)
    (next : fsys text -> response * fsys text) fs : response * fsys text :=
  if token_rejected header then (unauthorized, fs) else next fs.

(** *** Ordering policy *)

(** [x - y] *)
Definition js_sub (x y : json) : option Z :=
  match x, y with
  | JNum a, JNum b => Some (a - b)%Z
  | _, _ => coerced_sub x y
  end.

(** [a.name || a.title || ''] *)
Definition sort_name (a : json) : result json :=
  let* n := get_prop a "name" in
  let* t := get_prop a "title" in
  Return (or_else (js_or n t) (JStr "")).

(** [nameA.localeCompare(nameB)]: only a string has the method; the
    argument is converted to a string. *)
Definition js_localeCompare (nameA nameB : json) : result (option Z) :=
  match nameA with
  | JStr s =>
      Return (Some (localeCompare s
                      match nameB with JStr t => t | _ => ToString nameB end))
  | _ => Throw TypeError
  end.

(** The comparator handed to [sort]. *)
Definition compareRecords (a b : json) : result (option Z) :=
  let* da := get_prop a "displayOrder" in
  let* db := get_prop b "displayOrder" in
  if negb (strict_equal da db)
  then Return (js_sub (or_else da (JNum 0)) (or_else db (JNum 0)))
  else
    let* nameA := sort_name a in
    let* nameB := sort_name b in
    js_localeCompare nameA nameB.

(** A comparator result is used through [v > 0] only; [NaN] counts as 0. *)
Definition positive_result (v : option Z) : bool :=
  match v with
  | Some z => (0 <? z)%Z
  | None => false
  end.

(** [Array.prototype.sort(compareRecords)].  The language fixes the
    result for a consistent comparator (the stable sorted arrangement)
    and leaves the sequence of comparator calls to the engine; the
    embedding is the stable insertion sort: an element moves behind a
    later one only when the comparator says it is greater.

    Where the comparator is a consistent order that does not throw, as
    on the records of one collection and on renumbered records, this is
    the arrangement of every engine.  Elsewhere (a record without
    [displayOrder] among records at position 0, a name that is not a
    string) the arrangement, and whether the comparator is called on a
    pair for which it throws, depend on the calls the engine makes: of
    such arrays the development states only what does not depend on
    them, that the result holds the same records, or it computes the
    comparator itself. *)
Fixpoint insert_record (x : json) (l : list json) : result (list json) :=
  match l with
  | [] => Return [x]
  | y :: l' =>
      let* c := compareRecords x y in
      if positive_result c
      then let* r := insert_record x l' in Return (y :: r)
      else Return (x :: y :: l')
  end.

Fixpoint sort_records (l : list json) : result (list json) :=
  match l with
  | [] => Return []
  | x :: l' => let* s := sort_records l' in insert_record x s
  end.

(** *** Save-JSON endpoint *)

(** The file-name guard
    [!file?.endsWith(".json") || file.includes("..") || file.includes("/")]:
    [Return (Some s)] when the name [s] passes, [Return None] when the
    request is to be rejected; a [file] that is neither nullish nor a
    string has no [endsWith] method. *)
Definition check_file (file : option json) : result (option string) :=
  match file with
  | None => Return None
  | Some JNull => Return None
  | Some (JStr s) =>
      if negb (endsWith s ".json") || includes s ".." || includes s "/"
      then Return None
      else Return (Some s)
  | Some _ => Throw TypeError
  end.

(** [JSON.parse(JSON.stringify(content))]; [JSON.stringify(undefined)]
    is [undefined], which does not parse. *)
Definition validate (content : option json) : result json :=
  match content with
  | None => Throw SyntaxError
  | Some c =>
      match JSON_parse (JSON_stringify c) with
      | Some _ => Return c
      | None => Throw SyntaxError
      end
  end.

(** [Array.isArray(dataToSave) ? dataToSave.length : 1] *)
Definition count_of (v : json) : nat :=
  match v with
  | JArr items => length items
  | _ => 1
  end.

(** [fs.writeFile(abs, JSON.stringify(dataToSave, null, 2))] and the
    success response. *)
Definition write_data fs (name : string) (dataToSave : json)
    : result (response * fsys text) :=
  let* fs' := writeFile fs (path_join DATA_DIR name)
                (JSON_stringify_pretty dataToSave) in
  Return (Response 200 (OkCount (count_of dataToSave)), fs').

(** The body of the [try] block; a [Throw] is what reaches [catch]. *)
Definition save_json_try fs (file content : option json)
    : result (response * fsys text) :=
  let* checked := check_file file in
  match checked with
  | None => Return (Response 400 (Error "invalid file"), fs)
  | Some name =>
      let* c := validate content in
      match c with
      | JArr items =>
          let* sorted := sort_records items in
          if String.eqb name "programs.json" && (4 <? length sorted)%nat
          then Return (Response 400 (Error programs_limit_msg), fs)
          else write_data fs name (JArr sorted)
      | _ => write_data fs name c
      end
  end.

Definition catch500 fs (r : result (response * fsys text))
    : response * fsys text :=
  match r with
  | Return out => out
  | Throw e => (Response 500 (ErrorOf e), fs)
  end.

(** [app.post("/dev/save-json", requireDevToken, ...)] with auto-sorting. *)
Definition save_json fs (file content : option json) : response * fsys text :=
  catch500 fs (save_json_try fs file content).

Definition post_save_json (header : option string) (file content : option json)
    fs : response * fsys text :=
  requireDevToken header (fun fs => save_json fs file content) fs.

(** The save endpoint without the ordering policy: the first version of
    [registerRoutes] (writing below [DATA_DIR]) and the stand-alone dev
    server (writing below [SRC_DATA_DIR]). *)
Definition save_json_plain_try (dir : path) fs (file content : option json)
    : result (response * fsys text) :=
  let* checked := check_file file in
  match checked with
  | None => Return (Response 400 (Error "invalid file"), fs)
  | Some name =>
      let* c := validate content in
      let* fs' := writeFile fs (path_join dir name) (JSON_stringify_pretty c) in
      Return (Response 200 Ok_, fs')
  end.

Definition save_json_plain (dir : path) fs (file content : option json)
    : response * fsys text :=
  catch500 fs (save_json_plain_try dir fs file content).

Definition post_save_json_plain (dir : path) (header : option string)
    (file content : option json) fs : response * fsys text :=
  requireDevToken header (fun fs => save_json_plain dir fs file content) fs.

(** *** Upload endpoint *)

Record upload_file : Type := UploadFile {
  originalname : string;
  mimetype : string;
  size : N;
  content_of : text
}.

(** multer's [fileFilter]: [true] accepts the file. *)
Definition fileFilter (file : upload_file) : bool :=
  let extname_ok := allowedTypes_test (toLowerCase (extname (originalname file))) in
  let mimetype_ok := allowedTypes_test (mimetype file) in
  mimetype_ok && extname_ok.

(** [req.query.category as string || 'misc'] *)
Definition query_category (q : option string) : string :=
  match q with
  | Some c => if String.eqb c "" then "misc" else c
  | None => "misc"
  end.

Definition allowedCategories : list string :=
  ["members"; "news"; "hero"; "programs"; "misc"].

(** [allowedCategories.includes(category) ? category : 'misc'] *)
Definition finalCategory (q : option string) : string :=
  let category := query_category q in
  if existsb (String.eqb category) allowedCategories then category else "misc".

(** The directory handed to [cb] by [destination]. *)
Definition destDir (q : option string) : path :=
  path_join UPLOAD_DIR (finalCategory q).

(** The name handed to [cb] by [filename]; [now] is [Date.now()]. *)
Definition filename (file : upload_file) (now : N) : string :=
  let ext := extname (originalname file) in
  let base := dash_runs false (toLowerCase (basename (originalname file) ext)) in
  base +:+ "-" +:+ pretty now +:+ ext.

Definition fileSize_limit : N := 10 * 1024 * 1024.

(** [upload.single("file")]: the file filter, then the disk storage
    (destination, file name, write) under the size limit.  The result is
    [req.file] ([None] when the request carries no file) or the error
    given to [next]. *)
Definition upload_single fs (q : option string) (file : option upload_file)
    (now : N) : result (option string) * fsys text :=
  match file with
  | None => (Return None, fs)
  | Some f =>
      if negb (fileFilter f) then (Throw FileFilterError, fs)
      else
        match mkdir_p fs (destDir q) with
        | Throw e => (Throw e, fs)
        | Return fs1 =>
            if (fileSize_limit <? size f)%N then (Throw LimitFileSize, fs1)
            else
              let name := filename f now in
              match writeFile fs1 (path_join (destDir q) name) (content_of f) with
              | Throw e => (Throw e, fs1)
              | Return fs2 => (Return (Some name), fs2)
              end
        end
  end.

(** [app.post("/dev/upload", requireDevToken, upload.single("file"), ...)];
    an error of the upload middleware goes to the framework's error
    handler, which answers 500. *)
Definition post_upload (header : option string) (q : option string)
    (file : option upload_file) (now : N) fs : response * fsys text :=
  requireDevToken header (fun fs =>
    match upload_single fs q file now with
    | (Throw e, fs') => (Response 500 (ErrorOf e), fs')
    | (Return None, fs') => (Response 400 (Error "no file"), fs')
    | (Return (Some name), fs') =>
        let category := query_category q in
        (Response 200 (OkPath ("/uploads/" +:+ category +:+ "/" +:+ name)), fs')
    end) fs.

(** *** Delete endpoint *)

Definition delete_upload_try fs (filePath : option json)
    : result (response * fsys text) :=
  if negb (truthy filePath)
  then Return (Response 400 (Error "invalid file path"), fs)
  else
    match filePath with
    | Some (JStr s) =>
        if negb (startsWith s "/uploads/")
        then Return (Response 400 (Error "invalid file path"), fs)
        else
          let abs := path_join PUBLIC_DIR s in
          if negb (access fs abs)
          then Return (Response 404 (Error "file not found"), fs)
          else
            let* fs' := unlink fs abs in
            Return (Response 200 Ok_, fs')
    | _ => Throw TypeError
    end.

(** [app.delete("/dev/upload", requireDevToken, ...)] *)
Definition delete_upload fs (filePath : option json) : response * fsys text :=
  catch500 fs (delete_upload_try fs filePath).

Definition delete_upload_route (header : option string) (filePath : option json)
    fs : response * fsys text :=
  requireDevToken header (fun fs => delete_upload fs filePath) fs.

(** *** Client helpers *)

Variable DEV : bool.                    (* import.meta.env.DEV *)
Variable DEV_TOKEN : option string.     (* import.meta.env.VITE_LOCAL_ADMIN_TOKEN *)

(** [response.ok] *)
Definition response_ok (r : response) : bool :=
  (200 <=? status r)%nat && (status r <=? 299)%nat.

(** [saveToJson(filename, data)]: the request goes through the token
    gate with the header [DEV_TOKEN || ""]. *)
Definition saveToJson fs (file : string) (items : list json)
    : result response * fsys text :=
  if negb DEV then (Throw FetchError, fs)
  else
    let header := Some (if truthy (JStr <$> DEV_TOKEN) then default "" DEV_TOKEN else "") in
    let '(r, fs') := post_save_json header (Some (JStr file)) (Some (JArr items)) fs in
    if response_ok r then (Return r, fs') else (Throw FetchError, fs').

(** [loadJsonData(filename)]: the static server answers [/data/<filename>]
    with the file of that name in the public data directory. *)
Definition loadJsonData fs (file : string) : result json :=
  match fs !! path_join DATA_DIR file with
  | Some (File t) =>
      match JSON_parse t with
      | Some v => Return v
      | None => Throw SyntaxError
      end
  | _ => Throw FetchError
  end.

(** [orderedMembers.map((member, index) => ({ ...member, displayOrder: index }))] *)
Definition renumber (ordered : list obj) : list obj :=
  imap (fun index member => assign "displayOrder" (JNum (Z.of_nat index)) member) ordered.

(** The [saveOrderMutation] of a management component saving to [file]. *)
Definition saveOrderMutation (file : string) fs (ordered : list obj)
    : result (list obj) * fsys text :=
  let updated := renumber ordered in
  match saveToJson fs file (JObj <$> updated) with
  | (Return _, fs') => (Return updated, fs')
  | (Throw e, fs') => (Throw e, fs')
  end.

(** Member management and member-class management. *)
Definition saveMemberOrder := saveOrderMutation "members.json".
Definition saveClassOrder := saveOrderMutation "memberClasses.json".
(** Program management and hero-image management. *)
Definition saveProgramOrder := saveOrderMutation "programs.json".
Definition saveHeroOrder := saveOrderMutation "heroImages.json".
End DevApi.

(** ** Records and their order *)

(** The number the comparator reads off a record: its [displayOrder]
    when that is a number, and [0] when there is none. *)
Definition displayOrder_of (r : json) : Z :=
  match r with
  | JObj props =>
      match assoc "displayOrder" props with
      | Some (JNum n) => n
      | _ => 0%Z
      end
  | _ => 0%Z
  end.

(** The secondary key of a record: [name] when it has a non-empty one,
    else [title], else the empty string. *)
Definition secondary_value (r : json) : json :=
  match r with
  | JObj props => or_else (js_or (assoc "name" props) (assoc "title" props)) (JStr "")
  | _ => JStr ""
  end.

Definition secondary_key (r : json) : string :=
  match secondary_value r with
  | JStr s => s
  | _ => ""
  end.

(** A record: a JSON object whose secondary key is a string. *)
Definition is_record (r : json) : bool :=
  match r with
  | JObj _ => match secondary_value r with JStr _ => true | _ => false end
  | _ => false
  end.

(** A record of a collection with a manual order ([has = true]: it carries
    a numeric [displayOrder]) or of one without ([has = false]: it carries
    no [displayOrder], as the news articles do). *)
Definition record_with (has : bool) (r : json) : bool :=
  is_record r &&
  match r with
  | JObj props =>
      match assoc "displayOrder" props with
      | Some (JNum _) => has
      | None => negb has
      | Some _ => false
      end
  | _ => false
  end.

(** A member record with just a name and a position. *)
Definition member (name : string) (order : Z) : json :=
  JObj [("name", JStr name); ("displayOrder", JNum order)].

(** [renumber], counting from [k]. *)
Definition renumber_from (k : nat) (ordered : list obj) : list obj :=
  imap (fun index m => assign "displayOrder" (JNum (Z.of_nat (k + index))) m) ordered.

(** The order of the ordering policy on records, for a collation [lc]:
    [displayOrder] first, the secondary key among equals. *)
Definition record_le (lc : string -> string -> Z) (a b : json) : Prop :=
  (displayOrder_of a < displayOrder_of b)%Z
  \/ (displayOrder_of a = displayOrder_of b
      /\ (lc (secondary_key a) (secondary_key b) <= 0)%Z).

(** What makes a collation a total preorder. *)
Definition collation_total (lc : string -> string -> Z) : Prop :=
  forall a b, (0 < lc a b)%Z -> (lc b a <= 0)%Z.

Definition collation_transitive (lc : string -> string -> Z) : Prop :=
  forall a b c, (lc a b <= 0)%Z -> (lc b c <= 0)%Z -> (lc a c <= 0)%Z.

(** Serialisation followed by parsing gives the value back. *)
Definition parses_back {text : Type} (stringify : json -> text)
    (parse : text -> option json) : Prop :=
  forall v, parse (stringify v) = Some v.

(** What reading a collection back after a reorder is expected to give:
    the reordered records in their new order, the one at index [i]
    carrying [displayOrder] [i] and every other field as it was. *)
Definition read_back_in_order (loaded : result json) (ordered : list obj) : Prop :=
  exists records,
    loaded = Return (JArr (JObj <$> records))
    /\ length records = length ordered
    /\ forall i member, ordered !! i = Some member ->
         exists rec,
           records !! i = Some rec
           /\ assoc "displayOrder" rec = Some (JNum (Z.of_nat i))
           /\ forall k, k <> "displayOrder" -> assoc k rec = assoc k member.

(** The write precondition of [writeFile]. *)
Definition writable {data : Type} (fs : fsys data) (p : path) : bool :=
  is_dir fs (parent p) && negb (is_dir fs p).

(** The allowed image set, as extensions and as MIME types. *)
Definition allowed_image_types : list string :=
  ["jpeg"; "jpg"; "png"; "webp"; "gif"].

Definition extension_allowed (name : string) : bool :=
  existsb (fun t => String.eqb (toLowerCase (extname name)) ("." +:+ t))
    allowed_image_types.

Definition mimetype_allowed (mime : string) : bool :=
  existsb (fun t => String.eqb mime ("image/" +:+ t)) allowed_image_types.

(** [p] lies below the directory [root]. *)
Definition below (root p : path) : bool :=
  (length root <? length p)%nat && bool_decide (take (length root) p = root).

(** ** A reference runtime

    Files hold the document itself, strings are collated by code point,
    and the coercions of non-numbers and non-strings answer [NaN] and the
    empty string.  It instantiates the runtime at concrete requests. *)
Module Ref.
Definition text : Type := json.
Definition JSON_stringify (v : json) : text := v.
Definition JSON_parse (t : text) : option json := Some t.

Definition localeCompare (a b : string) : Z :=
  match String.compare a b with
  | Lt => (-1)%Z
  | Eq => 0%Z
  | Gt => 1%Z
  end.

Definition coerced_sub (x y : json) : option Z := None.
Definition ToString (v : json) : string := "".
Definition cwd : path := ["srv"; "medso"].

(** The tree the server creates on startup, and nothing else. *)
Definition fs0 : fsys text :=
  list_to_map
    [ (["srv"], Dir);
      (["srv"; "medso"], Dir);
      (["srv"; "medso"; "client"], Dir);
      (["srv"; "medso"; "client"; "public"], Dir);
      (["srv"; "medso"; "client"; "public"; "data"], Dir);
      (["srv"; "medso"; "client"; "public"; "uploads"], Dir) ].

Definition save_json := save_json JSON_stringify JSON_stringify JSON_parse
                          localeCompare coerced_sub ToString cwd.
Definition post_save_json := post_save_json JSON_stringify JSON_stringify JSON_parse
                               localeCompare coerced_sub ToString cwd.
Definition loadJsonData := loadJsonData (text := text) JSON_parse cwd.
Definition sort_records := sort_records localeCompare coerced_sub ToString.
Definition token : option string := Some "secret".

(** Sample requests. *)
Definition program (title : string) (order : Z) : json :=
  JObj [("title", JStr title); ("displayOrder", JNum order)].

Definition unordered_members : list json :=
  [member "Bob" 1; member "Alice" 0].

Definition tied_members : list json :=
  [member "Carol" 2; member "Bob" 0; member "Alice" 0].

Definition four_programs : list json :=
  [program "Outreach" 3; program "Clinic" 1; program "Seminar" 2;
   program "Mentoring" 0].

Definition five_programs : list json :=
  program "First aid" 4 :: four_programs.

Definition dragged_members : list obj :=
  [ [("id", JStr "m2"); ("name", JStr "Bob"); ("displayOrder", JNum 5)];
    [("id", JStr "m1"); ("name", JStr "Alice")];
    [("id", JStr "m3"); ("displayOrder", JNum 5); ("name", JStr "Carol")] ].

Definition site_settings : json :=
  JObj [("title", JStr "Medical Society");
        ("links", JArr [JStr "a"; JStr "b"; JStr "c"; JStr "d"; JStr "e"])].

Definition spoofed_upload : upload_file :=
  UploadFile "report.pngx" "text/x-gift" 4096 (JStr "bytes").

Definition photo_upload : upload_file :=
  UploadFile "Photo.png" "image/png" 4096 (JStr "image bytes").

Definition members_file : path :=
  ["srv"; "medso"; "client"; "public"; "data"; "members.json"].

Definition fs_with_members : fsys text :=
  <[members_file := File (JArr tied_members)]> fs0.
End Ref.

(** A proper segment: no slash, and none of the names that normalisation
    treats specially. *)
Definition proper_segment (s : string) : Prop :=
  includes s "/" = false /\ s <> "" /\ s <> "." /\ s <> "..".

(** ** The first version of the upload endpoint

    [multer({ dest: UPLOAD_DIR })] followed by a rename, as in the
    stand-alone dev server and in the first version of [registerRoutes]:
    no file filter, no categories. *)

Section PlainUpload.
Context {text : Type}.
Variable cwd : path.
Variable TOKEN : option string.

(** [fs.rename(oldPath, newPath)] for a file: the file moves, replacing a
    file that is already there. *)
Definition rename (fs : fsys text) (oldPath newPath : path) : result (fsys text) :=
  match fs !! oldPath with
  | Some (File d) =>
      if is_dir fs (parent newPath) && negb (is_dir fs newPath)
      then Return (<[newPath := File d]> (delete oldPath fs))
      else Throw IOError
  | _ => Throw IOError
  end.

(** [upload.single("file")] with disk storage below [UPLOAD_DIR]; [tmp] is
    the random name the storage gives the file.  The result is
    [req.file.path]. *)
Definition upload_single_plain (fs : fsys text) (file : option (@upload_file text))
    (tmp : string) : result (option (@upload_file text * path)) * fsys text :=
  match file with
  | None => (Return None, fs)
  | Some f =>
      if (fileSize_limit <? size f)%N then (Throw LimitFileSize, fs)
      else
        match writeFile fs (path_join (UPLOAD_DIR cwd) tmp) (content_of f) with
        | Throw e => (Throw e, fs)
        | Return fs1 => (Return (Some (f, path_join (UPLOAD_DIR cwd) tmp)), fs1)
        end
  end.

(** [`${basename}-${timestamp}${ext}`] with the base name as it came. *)
Definition newFilename (file : @upload_file text) (now : N) : string :=
  let ext := extname (originalname file) in
  basename (originalname file) ext +:+ "-" +:+ pretty now +:+ ext.

(** [app.post("/dev/upload", requireToken, upload.single("file"), ...)] *)
Definition post_upload_plain (header : option string) (file : option (@upload_file text))
    (tmp : string) (now : N) (fs : fsys text) : response * fsys text :=
  requireDevToken TOKEN header (fun fs =>
    match upload_single_plain fs file tmp with
    | (Throw e, fs') => (Response 500 (ErrorOf e), fs')
    | (Return None, fs') => (Response 400 (Error "no file"), fs')
    | (Return (Some (f, tmpPath)), fs') =>
        let name := newFilename f now in
        match rename fs' tmpPath (path_join (UPLOAD_DIR cwd) name) with
        | Throw e => (Response 500 (ErrorOf e), fs')
        | Return fs'' => (Response 200 (OkPath ("/uploads/" +:+ name)), fs'')
        end
    end) fs.
End PlainUpload.

(** ** Sessions and login *)

(** What the routes keep in [req.session]: the flags [isAuthenticated] and
    [isAdmin] (absent counts as false) and [user]. *)
Record session : Type := Session {
  authenticated : bool;
  admin : bool;
  user : option json
}.

(** A fresh session, also what a request finds after [session.destroy]. *)
Definition no_session : session := Session false false None.

Record reply : Type := Reply { code : nat; answer : option json }.

Definition message (code : nat) (m : string) : reply :=
  Reply code (Some (JObj [("message", JStr m)])).

Definition admin_user : json :=
  JObj [("id", JStr "admin"); ("username", JStr "admin"); ("role", JStr "admin")].

(** [loginSchema.parse(req.body)]: an object with a string [username] and
    a string [password]; [None] when the schema throws. *)
Definition loginSchema_parse (body : option json) : option (string * string) :=
  match body with
  | Some (JObj props) =>
      match assoc "username" props, assoc "password" props with
      | Some (JStr username), Some (JStr password) => Some (username, password)
      | _, _ => None
      end
  | _ => None
  end.

(** [app.post('/api/login', ...)] *)
Definition login (s : session) (body : option json) : reply * session :=
  match loginSchema_parse body with
  | Some (username, password) =>
      if String.eqb username "admin" && String.eqb password "password"
      then (message 200 "Login successful", Session true true (Some admin_user))
      else (message 401 "Invalid username or password", s)
  | None => (message 400 "Invalid request data", s)
  end.

(** [app.post('/api/logout', ...)] *)
Definition logout (s : session) : reply * session :=
  (message 200 "Logged out successfully", no_session).

(** The middleware [isAuthenticated] in front of a handler. *)
Definition isAuthenticated (s : session) (next : session -> reply * session)
    : reply * session :=
  if authenticated s then next s
  else (message 401 "Authentication required", s).

(** The middleware [isAdmin] in front of a handler. *)
Definition isAdmin (s : session) (next : session -> reply * session)
    : reply * session :=
  if authenticated s && admin s then next s
  else (message 403 "Admin access required", s).

(** [app.get('/api/auth/user', isAuthenticated, ...)] *)
Definition auth_user (s : session) : reply * session :=
  isAuthenticated s (fun s => (Reply 200 (user s), s)).

(** [app.get('/api/auth/admin', isAuthenticated, ...)] *)
Definition auth_admin (s : session) : reply * session :=
  isAuthenticated s (fun s =>
    (Reply 200 (Some (JObj
       [("isAdmin", JBool (admin s));
        ("adminUser",
         if admin s then JObj [("id", JStr "admin"); ("role", JStr "admin")]
         else JNull)])), s)).

Inductive request : Type :=
  | PostLogin (body : option json)
  | PostLogout
  | GetAuthUser
  | GetAuthAdmin.

Definition handle (s : session) (q : request) : reply * session :=
  match q with
  | PostLogin body => login s body
  | PostLogout => logout s
  | GetAuthUser => auth_user s
  | GetAuthAdmin => auth_admin s
  end.

(** The session after a sequence of requests. *)
Definition session_after (s : session) (requests : list request) : session :=
  fold_left (fun s q => snd (handle s q)) requests s.

(** The sessions that requests can produce. *)
Definition coherent (s : session) : Prop :=
  s = no_session \/ s = Session true true (Some admin_user).

(** A login request with the credentials the route accepts. *)
Definition successful_login (q : request) : bool :=
  match q with
  | PostLogin body =>
      match loginSchema_parse body with
      | Some (username, password) =>
          String.eqb username "admin" && String.eqb password "password"
      | None => false
      end
  | _ => false
  end.

(** ** The admin page of the dev site *)

(** [{ ...base, ...data }] *)
Definition spread_over (base data : obj) : obj :=
  fold_left (fun acc kv => assign (fst kv) (snd kv) acc) data base.

(** The receiver of [filter], [findIndex] or [push] has to be an array. *)
Definition as_array (v : json) : result (list json) :=
  match v with
  | JArr items => Return items
  | _ => Throw TypeError
  end.

(** [items.filter(m => m.id !== id)] *)
Fixpoint filter_other_ids (id : string) (items : list json) : result (list json) :=
  match items with
  | [] => Return []
  | m :: rest =>
      let* mid := get_prop m "id" in
      let* kept := filter_other_ids id rest in
      Return (if negb (strict_equal mid (Some (JStr id))) then m :: kept else kept)
  end.

(** [items.findIndex(c => c.id === id)]; [None] is [-1]. *)
Fixpoint findIndex_id (id : string) (items : list json) : result (option nat) :=
  match items with
  | [] => Return None
  | c :: rest =>
      let* cid := get_prop c "id" in
      if strict_equal cid (Some (JStr id)) then Return (Some 0%nat)
      else let* found := findIndex_id id rest in Return (S <$> found)
  end.

(** [m.id === id], for a record that can be asked for its [id]. *)
Definition has_id (id : string) (m : json) : bool :=
  match get_prop m "id" with
  | Return mid => strict_equal mid (Some (JStr id))
  | Throw _ => false
  end.

(** The order of the news list: by title. *)
Definition title_le (lc : string -> string -> Z) (a b : json) : Prop :=
  (lc (secondary_key a) (secondary_key b) <= 0)%Z.

(** The forms of the dialogs, as the object literals they are. *)
Definition class_form (name description : string) (displayOrder : Z) : obj :=
  [("name", JStr name); ("description", JStr description);
   ("displayOrder", JNum displayOrder)].

Definition program_form (title subtitle description image : string)
    (displayOrder : Z) : obj :=
  [("title", JStr title); ("subtitle", JStr subtitle);
   ("description", JStr description); ("image", JStr image);
   ("displayOrder", JNum displayOrder)].

Definition MAX_FILE_SIZE : N := 5 * 1024 * 1024.

Definition ALLOWED_FILE_TYPES : list string :=
  ["image/jpeg"; "image/jpg"; "image/png"; "image/webp"; "image/gif"].

(** [validateImageFile(file).valid] *)
Definition validateImageFile {text : Type} (file : upload_file (text := text)) : bool :=
  if (MAX_FILE_SIZE <? size file)%N then false
  else if negb (existsb (String.eqb (mimetype file)) ALLOWED_FILE_TYPES) then false
  else true.

(** [result.publicPath] *)
Definition publicPath_of (b : body) : option string :=
  match b with
  | OkPath p => Some p
  | _ => None
  end.

(** What [handleFileChange] of an image field comes to. *)
Inductive field_outcome : Type :=
  | NoFile
  | InvalidFile
  | Uploaded (url : option string)
  | UploadFailed.

Section AdminPage.
Context {text : Type}.
Variable JSON_stringify : json -> text.
Variable JSON_stringify_pretty : json -> text.
Variable JSON_parse : text -> option json.
Variable localeCompare : string -> string -> Z.
Variable coerced_sub : json -> json -> option Z.
Variable ToString : json -> string.
Variable cwd : path.
Variable TOKEN : option string.
Variable DEV : bool.
Variable DEV_TOKEN : option string.

#[local] Abbreviation client_save :=
  (saveToJson JSON_stringify JSON_stringify_pretty JSON_parse
     localeCompare coerced_sub ToString cwd TOKEN DEV DEV_TOKEN).
#[local] Abbreviation client_load := (loadJsonData JSON_parse cwd).

(** A mutation resolves with the collection it saved ([Some]) or rejects
    ([None]). *)
Definition save_collection (fs : fsys text) (file : string) (items : list json)
    : option (list json) * fsys text :=
  match client_save fs file items with
  | (Return _, fs') => (Some items, fs')
  | (Throw _, fs') => (None, fs')
  end.

(** The collection a mutation starts from:
    [await loadJsonData(file)], which has to be an array. *)
Definition load_collection (fs : fsys text) (file : string) : result (list json) :=
  let* loaded := client_load fs file in as_array loaded.

(** The [deleteMutation] of a management component. *)
Definition deleteMutation (file : string) (id : string) (fs : fsys text)
    : option (list json) * fsys text :=
  match (let* items := load_collection fs file in filter_other_ids id items) with
  | Return filtered => save_collection fs file filtered
  | Throw _ => (None, fs)
  end.

(** The collection after the edit or the addition of a dialog: with a
    record being edited, the first record of that id (an object, since it
    has an [id]) takes the form's fields, and nothing changes when there
    is none; without, a new record of the form's fields and a fresh id is
    pushed. *)
Definition apply_form (editing : option string) (data : obj) (newId : string)
    (items : list json) : result (list json) :=
  match editing with
  | Some id =>
      let* index := findIndex_id id items in
      match index with
      | Some i =>
          match items !! i with
          | Some (JObj props) => Return (<[i := JObj (spread_over props data)]> items)
          | _ => Return items
          end
      | None => Return items
      end
  | None =>
      Return (items ++ [JObj (assign "id" (JStr newId) (spread_over [] data))])%list
  end.

(** The [saveMutation] of the class, news and hero-image dialogs;
    [newId] is [generateId()]. *)
Definition saveMutation (file : string) (editing : option string) (data : obj)
    (newId : string) (fs : fsys text) : option (list json) * fsys text :=
  match (let* items := load_collection fs file in
         apply_form editing data newId items) with
  | Return updated => save_collection fs file updated
  | Throw _ => (None, fs)
  end.

(** The [saveMutation] of the program dialog, with its limit. *)
Definition programSaveMutation (editing : option string) (data : obj)
    (newId : string) (fs : fsys text) : option (list json) * fsys text :=
  match load_collection fs "programs.json" with
  | Throw _ => (None, fs)
  | Return programs =>
      if match editing with None => true | Some _ => false end
         && (4 <=? length programs)%nat
      then (None, fs)
      else
        match apply_form editing data newId programs with
        | Return updated => save_collection fs "programs.json" updated
        | Throw _ => (None, fs)
        end
  end.

(** The [saveOrderMutation] of the news list: the order is sent as it is. *)
Definition saveNewsOrder (fs : fsys text) (orderedNews : list obj)
    : option (list json) * fsys text :=
  save_collection fs "news.json" (JObj <$> orderedNews).

(** [uploadImage(file)] of the client library; no category is sent. *)
Definition uploadImage (fs : fsys text) (file : @upload_file text) (now : N)
    : result (option string) * fsys text :=
  if negb DEV then (Throw FetchError, fs)
  else
    let header := Some (if truthy (JStr <$> DEV_TOKEN) then default "" DEV_TOKEN else "") in
    let '(r, fs') := post_upload cwd TOKEN header None (Some file) now fs in
    if response_ok r then (Return (publicPath_of (payload r)), fs')
    else (Throw FetchError, fs').

(** [handleFileChange] of [ImageUploadField]: the field's [category] is
    handed to [uploadImage], which has no parameter for it. *)
Definition handleFileChange (category : string) (fs : fsys text)
    (file : option (@upload_file text)) (now : N) : field_outcome * fsys text :=
  match file with
  | None => (NoFile, fs)
  | Some f =>
      if negb (validateImageFile f) then (InvalidFile, fs)
      else
        match uploadImage fs f now with
        | (Return url, fs') => (Uploaded url, fs')
        | (Throw _, fs') => (UploadFailed, fs')
        end
  end.
End AdminPage.

(** ** Sample states and requests of the admin page

    The reference runtime of [Ref], with the client in development mode
    and holding the server's token. *)

Module Sample.
Definition upload (q : option string) (file : @upload_file Ref.text)
    : response * fsys Ref.text :=
  post_upload Ref.cwd Ref.token (Some "secret") q (Some file) 1700000000000 Ref.fs0.

Definition notes_upload : @upload_file Ref.text :=
  UploadFile "notes.txt" "text/plain" 120 (JStr "plain text").

Definition photo_path : string := "/uploads/members/photo-1700000000000.png".

Definition photo_file : path :=
  (UPLOAD_DIR Ref.cwd ++ ["members"; "photo-1700000000000.png"])%list.

(** The file system after the upload of a photo for a member. *)
Definition fs_with_photo : fsys Ref.text := snd (upload (Some "members") Ref.photo_upload).

Definition officers : json :=
  JObj [("id", JStr "c1"); ("name", JStr "Officers"); ("displayOrder", JNum 0)].

Definition regular_members : json :=
  JObj [("id", JStr "c2"); ("name", JStr "Members"); ("displayOrder", JNum 1)].

Definition advisors : json :=
  JObj [("id", JStr "c3"); ("name", JStr "Advisors"); ("displayOrder", JNum 2)].

Definition classes : list json := [officers; regular_members; advisors].

(** The form of the class dialog, and the class it makes of [c2] and of
    a new id. *)
Definition alumni_form : obj := class_form "Alumni" "Former members" 1.

Definition alumni_at_c2 : json :=
  JObj [("id", JStr "c2"); ("name", JStr "Alumni"); ("displayOrder", JNum 1);
        ("description", JStr "Former members")].

Definition alumni_new : json :=
  JObj [("name", JStr "Alumni"); ("description", JStr "Former members");
        ("displayOrder", JNum 1); ("id", JStr "1700000000000-k3j9x2a1b")].

Definition fs_with_classes : fsys Ref.text :=
  <[(DATA_DIR Ref.cwd ++ ["memberClasses.json"])%list := File (JArr classes)]> Ref.fs0.

Definition programs : list json :=
  [ JObj [("id", JStr "p1"); ("title", JStr "Clinic"); ("displayOrder", JNum 0)];
    JObj [("id", JStr "p2"); ("title", JStr "Mentoring"); ("displayOrder", JNum 1)];
    JObj [("id", JStr "p3"); ("title", JStr "Outreach"); ("displayOrder", JNum 2)];
    JObj [("id", JStr "p4"); ("title", JStr "Seminar"); ("displayOrder", JNum 3)] ].

Definition fs_with_programs : fsys Ref.text :=
  <[(DATA_DIR Ref.cwd ++ ["programs.json"])%list := File (JArr programs)]> Ref.fs0.

Definition dragged_news : list obj :=
  [ [("id", JStr "n2"); ("title", JStr "Vaccination week")];
    [("id", JStr "n3"); ("title", JStr "Blood drive")];
    [("id", JStr "n1"); ("title", JStr "First aid course")] ].

Definition deleteMutation :=
  deleteMutation Ref.JSON_stringify Ref.JSON_stringify Ref.JSON_parse
    Ref.localeCompare Ref.coerced_sub Ref.ToString Ref.cwd Ref.token
    true (Some "secret").

Definition saveMutation :=
  saveMutation Ref.JSON_stringify Ref.JSON_stringify Ref.JSON_parse
    Ref.localeCompare Ref.coerced_sub Ref.ToString Ref.cwd Ref.token
    true (Some "secret").

Definition programSaveMutation :=
  programSaveMutation Ref.JSON_stringify Ref.JSON_stringify Ref.JSON_parse
    Ref.localeCompare Ref.coerced_sub Ref.ToString Ref.cwd Ref.token
    true (Some "secret").

Definition saveNewsOrder :=
  saveNewsOrder Ref.JSON_stringify Ref.JSON_stringify Ref.JSON_parse
    Ref.localeCompare Ref.coerced_sub Ref.ToString Ref.cwd Ref.token
    true (Some "secret").

Definition load_collection := load_collection (text := Ref.text) Ref.JSON_parse Ref.cwd.

Definition handleFileChange :=
  handleFileChange (text := Ref.text) Ref.cwd Ref.token true (Some "secret").

Definition save_json_plain :=
  save_json_plain Ref.JSON_stringify Ref.JSON_stringify Ref.JSON_parse.

(** Two members at position 0 around one that has no position. *)
Definition mixed_members : list json :=
  [member "Bob" 0; JObj [("name", JStr "Zed")]; member "Alice" 0].

(** The tree of the stand-alone dev server after [ensureDirs], beside
    the members of the site. *)
Definition fs_standalone : fsys Ref.text :=
  <[SRC_DATA_DIR Ref.cwd := Dir]>
    (<[(Ref.cwd ++ ["client"; "src"])%list := Dir]> Ref.fs_with_members).

(** The articles of [dragged_news] by title. *)
Definition news_by_title : list json :=
  [ JObj [("id", JStr "n3"); ("title", JStr "Blood drive")];
    JObj [("id", JStr "n1"); ("title", JStr "First aid course")];
    JObj [("id", JStr "n2"); ("title", JStr "Vaccination week")] ].

(** A session that is logged in, and requests that do not log in. *)
Definition logged_in : session := Session true true (Some admin_user).

Definition wrong_password : request :=
  PostLogin (Some (JObj [("username", JStr "admin"); ("password", JStr "guess")])).

Definition idle_requests : list request :=
  [GetAuthUser; wrong_password; PostLogin None; GetAuthAdmin].
End Sample.

(** ** Facts about the operators *)

Lemma bind_Return {A B : Type} (m : result A) (k : A -> result B) (b : B) :
  bind m k = Return b -> exists a, m = Return a /\ k a = Return b.
Proof. destruct m as [a|e]; simpl; [eauto | discriminate]. Qed.

Lemma assoc_assign (k : string) (v : json) (props : obj) :
  assoc k (assign k v props) = Some v.
Proof.
  induction props as [|[k' v'] rest IH]; simpl.
  - now rewrite String.eqb_refl.
  - destruct (String.eqb k k') eqn:E; simpl; rewrite ?String.eqb_refl, ?E; auto.
Qed.

Lemma assoc_assign_other (k k' : string) (v : json) (props : obj) :
  k <> k' -> assoc k (assign k' v props) = assoc k props.
Proof.
  intros Hk. induction props as [|[k0 v0] rest IH]; cbn.
  - apply String.eqb_neq in Hk. now rewrite Hk.
  - destruct (String.eqb_spec k' k0) as [->|E]; cbn.
    + apply String.eqb_neq in Hk. now rewrite Hk.
    + now rewrite IH.
Qed.

Lemma or_else_num (n : Z) : or_else (Some (JNum n)) (JNum 0) = JNum n.
Proof.
  unfold or_else, truthy. destruct (Z.eqb_spec n 0) as [->|]; reflexivity.
Qed.

(** The secondary key is the name of a record that has one, and the
    title of a record without a name. *)
Lemma secondary_key_named (props : obj) (name : string) :
  assoc "name" props = Some (JStr name) -> name <> "" ->
  secondary_key (JObj props) = name.
Proof.
  intros Hn Hne. unfold secondary_key, secondary_value, js_or, or_else.
  rewrite Hn. cbn. apply String.eqb_neq in Hne. rewrite Hne. cbn.
  now rewrite Hne.
Qed.

Lemma secondary_key_titled (props : obj) (title : string) :
  assoc "name" props = None -> assoc "title" props = Some (JStr title) ->
  secondary_key (JObj props) = title.
Proof.
  intros Hn Ht. unfold secondary_key, secondary_value, js_or, or_else.
  rewrite Hn, Ht. cbn. now destruct (String.eqb title "") eqn:E;
    [apply String.eqb_eq in E; subst|].
Qed.

Lemma record_with_is_record (has : bool) (r : json) :
  record_with has r = true -> is_record r = true.
Proof. unfold record_with. intros H. apply andb_prop in H. tauto. Qed.

Lemma is_record_inv (r : json) :
  is_record r = true ->
  exists props s, r = JObj props /\ secondary_value r = JStr s.
Proof.
  destruct r as [| | | |items|props]; simpl; try discriminate.
  intros H. exists props.
  destruct (or_else _ _) as [| | |s| |] eqn:E; try discriminate.
  exists s. split; reflexivity.
Qed.

Lemma record_with_inv (has : bool) (r : json) :
  record_with has r = true ->
  exists props s,
    r = JObj props /\ secondary_value r = JStr s /\
    ((has = true /\ assoc "displayOrder" props = Some (JNum (displayOrder_of r)))
     \/ (has = false /\ assoc "displayOrder" props = None /\ displayOrder_of r = 0%Z)).
Proof.
  intros H. pose proof (record_with_is_record _ _ H) as Hr.
  destruct (is_record_inv _ Hr) as (props & s & -> & Hs).
  exists props, s. split; [reflexivity|]. split; [exact Hs|].
  unfold record_with in H. rewrite Hr in H. simpl in H. simpl.
  destruct (assoc "displayOrder" props) as [[| | n | | |]|]; try discriminate.
  - left. now subst.
  - right. destruct has; [discriminate | auto].
Qed.

Section OrderingFacts.
Variable localeCompare : string -> string -> Z.
Variable coerced_sub : json -> json -> option Z.
Variable ToString : json -> string.

#[local] Abbreviation cmp := (compareRecords localeCompare coerced_sub ToString).
#[local] Abbreviation ins := (insert_record localeCompare coerced_sub ToString).
#[local] Abbreviation srt := (sort_records localeCompare coerced_sub ToString).
#[local] Abbreviation le := (record_le localeCompare).

(** Sorting rearranges and loses nothing. *)
Lemma insert_record_perm (x : json) (l r : list json) :
  ins x l = Return r -> Permutation (x :: l) r.
Proof.
  revert r. induction l as [|y l IH]; intros r H; simpl in H.
  - injection H as <-. reflexivity.
  - apply bind_Return in H as (c & _ & H).
    destruct (positive_result c).
    + apply bind_Return in H as (r' & Hr' & H). injection H as <-.
      rewrite perm_swap. constructor. now apply IH.
    + injection H as <-. reflexivity.
Qed.

Lemma sort_records_perm (l s : list json) :
  srt l = Return s -> Permutation l s.
Proof.
  revert s. induction l as [|x l IH]; intros s H; simpl in H.
  - injection H as <-. reflexivity.
  - apply bind_Return in H as (s' & Hs' & H).
    apply insert_record_perm in H. rewrite <- H. constructor. now apply IH.
Qed.

Lemma sort_records_length (l s : list json) :
  srt l = Return s -> length s = length l.
Proof. intros H. symmetry. apply Permutation_length, sort_records_perm, H. Qed.

(** The comparator does not throw on records. *)
Lemma compare_records_total (a b : json) :
  is_record a = true -> is_record b = true -> exists c, cmp a b = Return c.
Proof.
  intros Ha Hb.
  destruct (is_record_inv _ Ha) as (pa & sa & -> & Hsa).
  destruct (is_record_inv _ Hb) as (pb & sb & -> & Hsb).
  unfold compareRecords, sort_name. simpl in *.
  destruct (negb _); [eauto|].
  rewrite Hsa, Hsb. simpl. eauto.
Qed.

Lemma insert_record_total (x : json) (l : list json) :
  is_record x = true -> Forall (fun r => is_record r = true) l ->
  exists r, ins x l = Return r.
Proof.
  intros Hx Hl. induction Hl as [|y l Hy Hl IH]; simpl; [eauto|].
  destruct (compare_records_total x y Hx Hy) as (c & ->). simpl.
  destruct (positive_result c); [|eauto].
  destruct IH as (r & ->). simpl. eauto.
Qed.

Lemma sort_records_total (l : list json) :
  Forall (fun r => is_record r = true) l -> exists s, srt l = Return s.
Proof.
  intros Hl. induction Hl as [|x l Hx Hl IH]; simpl; [eauto|].
  destruct IH as (s & Hs). rewrite Hs. simpl.
  apply insert_record_total; [exact Hx|].
  apply sort_records_perm in Hs. now rewrite <- Hs.
Qed.

(** On the records of one collection the comparator is the
    lexicographic one. *)
Lemma compare_uniform (has : bool) (a b : json) :
  record_with has a = true -> record_with has b = true ->
  cmp a b =
    Return (Some (if (displayOrder_of a =? displayOrder_of b)%Z
                  then localeCompare (secondary_key a) (secondary_key b)
                  else (displayOrder_of a - displayOrder_of b)%Z)).
Proof.
  intros Ha Hb.
  destruct (record_with_inv _ _ Ha) as (pa & sa & Ea & Hsa & Hda).
  destruct (record_with_inv _ _ Hb) as (pb & sb & Eb & Hsb & Hdb).
  unfold secondary_key. rewrite Hsa, Hsb.
  set (na := displayOrder_of a) in *. set (nb := displayOrder_of b) in *.
  subst a b. unfold compareRecords, sort_name. simpl in Hsa, Hsb |- *.
  destruct Hda as [(Hh & Hda)|(Hh & Hda & Hna)];
    destruct Hdb as [(Hh' & Hdb)|(Hh' & Hdb & Hnb)]; try congruence;
    rewrite Hda, Hdb; simpl.
  - destruct (na =? nb)%Z; simpl.
    + now rewrite Hsa, Hsb.
    + assert (E : forall n, (if negb (n =? 0)%Z then JNum n else JNum 0) = JNum n)
        by (intros n; destruct (Z.eqb_spec n 0) as [->|]; reflexivity).
      now rewrite !E.
  - rewrite Hna, Hnb. simpl. now rewrite Hsa, Hsb.
Qed.

Section Sorted.
Hypothesis lc_total : collation_total localeCompare.
Hypothesis lc_trans : collation_transitive localeCompare.

Lemma record_le_trans (a b c : json) : le a b -> le b c -> le a c.
Proof using lc_trans.
  unfold record_le. intros [H1|[H1 K1]] [H2|[H2 K2]].
  - left; lia.
  - left; lia.
  - left; lia.
  - right. split; [lia|]. eapply lc_trans; eauto.
Qed.

Lemma compare_le (has : bool) (a b : json) (c : option Z) :
  record_with has a = true -> record_with has b = true ->
  cmp a b = Return c ->
  if positive_result c then le b a else le a b.
Proof using lc_total.
  intros Ha Hb. rewrite (compare_uniform has a b Ha Hb).
  intros [= <-]. unfold positive_result, record_le.
  destruct (Z.eqb_spec (displayOrder_of a) (displayOrder_of b)) as [E|E].
  - destruct (Z.ltb_spec 0 (localeCompare (secondary_key a) (secondary_key b))).
    + right. split; [lia|]. now apply lc_total.
    + right. split; [lia|]. lia.
  - destruct (Z.ltb_spec 0 (displayOrder_of a - displayOrder_of b)).
    + left; lia.
    + left; lia.
Qed.

Lemma insert_record_sorted (has : bool) (x : json) (l r : list json) :
  record_with has x = true ->
  Forall (fun r => record_with has r = true) l ->
  StronglySorted le l ->
  ins x l = Return r ->
  StronglySorted le r.
Proof using lc_total lc_trans.
  intros Hx Hl. revert r.
  induction Hl as [|y l Hy Hl IH]; intros r Hs H; simpl in H.
  - injection H as <-. repeat constructor.
  - apply bind_Return in H as (c & Hc & H).
    pose proof (compare_le has x y c Hx Hy Hc) as Hle.
    apply StronglySorted_inv in Hs as [Hs Hyl].
    destruct (positive_result c).
    + apply bind_Return in H as (r' & Hr' & H). injection H as <-.
      constructor; [now apply IH|].
      apply insert_record_perm in Hr'. rewrite <- Hr'. now constructor.
    + injection H as <-. constructor; [now constructor|].
      constructor; [exact Hle|].
      eapply Forall_impl; [exact Hyl|]. intros z Hz.
      eapply record_le_trans; eauto.
Qed.

Lemma sort_records_sorted (has : bool) (l s : list json) :
  Forall (fun r => record_with has r = true) l ->
  srt l = Return s ->
  StronglySorted le s.
Proof using lc_total lc_trans.
  intros Hl. revert s. induction Hl as [|x l Hx Hl IH]; intros s H; simpl in H.
  - injection H as <-. constructor.
  - apply bind_Return in H as (s' & Hs' & H).
    apply (insert_record_sorted has x s' s); [exact Hx| |now apply IH|exact H].
    apply sort_records_perm in Hs'. now rewrite <- Hs'.
Qed.
End Sorted.

(** An element in front of a list stays in front when the comparator
    does not put it behind the list's head. *)
Lemma insert_record_head (x y : json) (l : list json) (c : option Z) :
  cmp x y = Return c -> positive_result c = false ->
  ins x (y :: l) = Return (x :: y :: l).
Proof. intros Hc Hp. simpl. rewrite Hc. simpl. now rewrite Hp. Qed.

Lemma compare_renumbered (a b : Z) (p q : obj) :
  a <> b ->
  cmp (JObj (assign "displayOrder" (JNum a) p))
      (JObj (assign "displayOrder" (JNum b) q)) = Return (Some (a - b)%Z).
Proof.
  intros Hab. unfold compareRecords. cbn [get_prop bind].
  rewrite !assoc_assign. cbn [strict_equal].
  destruct (Z.eqb_spec a b) as [|_]; [contradiction|]. cbn [negb].
  now rewrite !or_else_num.
Qed.
End OrderingFacts.

(** ** Facts about renumbering *)

Lemma renumber_from_cons (k : nat) (m : obj) (l : list obj) :
  renumber_from k (m :: l)
  = assign "displayOrder" (JNum (Z.of_nat k)) m :: renumber_from (S k) l.
Proof.
  unfold renumber_from. cbn [imap]. rewrite Nat.add_0_r. f_equal.
  apply imap_ext. intros i x _. cbn. do 3 f_equal. lia.
Qed.

Lemma renumber_from_lookup (k i : nat) (ordered : list obj) (m : obj) :
  renumber_from k ordered !! i = Some m ->
  assoc "displayOrder" m = Some (JNum (Z.of_nat (k + i))).
Proof.
  unfold renumber_from. rewrite list_lookup_imap.
  destruct (ordered !! i) as [m0|]; cbn; [|discriminate].
  intros [= <-]. apply assoc_assign.
Qed.

Lemma renumber_from_length (k : nat) (ordered : list obj) :
  length (renumber_from k ordered) = length ordered.
Proof. apply length_imap. Qed.

(** Renumbering keeps every record in its place and changes nothing but
    its [displayOrder]. *)
Lemma renumber_keeps_records (ordered : list obj) (i : nat) (member : obj) :
  ordered !! i = Some member ->
  exists rec,
    renumber_from 0 ordered !! i = Some rec
    /\ rec = assign "displayOrder" (JNum (Z.of_nat i)) member
    /\ assoc "displayOrder" rec = Some (JNum (Z.of_nat i))
    /\ forall k, k <> "displayOrder" -> assoc k rec = assoc k member.
Proof.
  intros Hi. exists (assign "displayOrder" (JNum (Z.of_nat i)) member).
  split.
  { unfold renumber_from. rewrite list_lookup_imap, Hi. reflexivity. }
  split; [reflexivity|]. split; [apply assoc_assign|].
  intros k Hk. now apply assoc_assign_other.
Qed.

Section ReorderFacts.
Variable localeCompare : string -> string -> Z.
Variable coerced_sub : json -> json -> option Z.
Variable ToString : json -> string.

#[local] Abbreviation srt' := (sort_records localeCompare coerced_sub ToString).

(** The server's sort leaves a renumbered array as it is. *)
Lemma sort_renumbered (k : nat) (ordered : list obj) :
  srt' (JObj <$> renumber_from k ordered) = Return (JObj <$> renumber_from k ordered).
Proof.
  revert k. induction ordered as [|m l IH]; intros k; [reflexivity|].
  rewrite renumber_from_cons. cbn [fmap list_fmap sort_records].
  rewrite IH. cbn [bind].
  destruct l as [|m' l']; [reflexivity|].
  rewrite renumber_from_cons. cbn [fmap list_fmap].
  eapply insert_record_head.
  - apply compare_renumbered. lia.
  - cbn. apply Z.ltb_ge. lia.
Qed.
End ReorderFacts.

(** ** The save endpoint *)

Lemma writeFile_Return {data : Type} (fs fs' : fsys data) (p : path) (d : data) :
  writeFile fs p d = Return fs' -> fs' = <[p := File d]> fs.
Proof.
  unfold writeFile. destruct (_ && _); [|discriminate]. now intros [= <-].
Qed.

Lemma writeFile_writable {data : Type} (fs : fsys data) (p : path) (d : data) :
  writable fs p = true -> writeFile fs p d = Return (<[p := File d]> fs).
Proof. unfold writeFile, writable. now intros ->. Qed.

Lemma check_file_string (s : string) :
  check_file (Some (JStr s)) =
  Return (if negb (endsWith s ".json") || includes s ".." || includes s "/"
          then None else Some s).
Proof. unfold check_file. now destruct (_ || _). Qed.

Lemma check_file_passed (file : option json) (name : string) :
  check_file file = Return (Some name) ->
  file = Some (JStr name)
  /\ endsWith name ".json" = true
  /\ includes name ".." = false
  /\ includes name "/" = false.
Proof.
  destruct file as [[| | |s| |]|]; simpl; try discriminate.
  destruct (endsWith s ".json") eqn:E1, (includes s "..") eqn:E2,
    (includes s "/") eqn:E3; simpl; intros [= <-]; auto.
Qed.

(** A name that passes the guard is one path segment, so the file it
    names sits directly in the directory it is joined to. *)
Lemma split_slash_plain (s : string) :
  includes s "/" = false -> split_slash s = [s].
Proof.
  induction s as [|c s IH]; [reflexivity|].
  cbn [includes startsWith split_slash]. intros H.
  apply orb_false_elim in H as [Hc Hs].
  rewrite Ascii.eqb_sym.
  destruct (Ascii.eqb "/" c); [discriminate Hc|].
  now rewrite (IH Hs).
Qed.

Lemma endsWith_json_proper (s : string) :
  endsWith s ".json" = true -> s <> "" /\ s <> "." /\ s <> "..".
Proof.
  intros H. split; [|split]; intros E; subst s; cbv in H; discriminate H.
Qed.

Lemma path_join_valid_name (base : path) (name : string) :
  check_file (Some (JStr name)) = Return (Some name) ->
  path_join base name = (base ++ [name])%list.
Proof.
  intros H. apply check_file_passed in H as (_ & Hjson & _ & Hslash).
  apply endsWith_json_proper in Hjson as (H0 & H1 & H2).
  unfold path_join. rewrite (split_slash_plain _ Hslash).
  cbn [normalize_onto].
  apply String.eqb_neq in H0, H1, H2. rewrite H0, H1, H2. cbn.
  now rewrite rev_involutive.
Qed.

Section SaveFacts.
Context {text : Type}.
Variable JSON_stringify : json -> text.
Variable JSON_stringify_pretty : json -> text.
Variable JSON_parse : text -> option json.
Variable localeCompare : string -> string -> Z.
Variable coerced_sub : json -> json -> option Z.
Variable ToString : json -> string.
Variable cwd : path.

#[local] Abbreviation save :=
  (save_json JSON_stringify JSON_stringify_pretty JSON_parse
     localeCompare coerced_sub ToString cwd).
#[local] Abbreviation sorted_by_policy := (sort_records localeCompare coerced_sub ToString).

Lemma validate_Return (content : option json) (c : json) :
  validate JSON_stringify JSON_parse content = Return c -> content = Some c.
Proof.
  destruct content as [c'|]; simpl; [|discriminate].
  destruct (JSON_parse _); [|discriminate]. now intros [= <-].
Qed.

Lemma validate_parses (c : json) :
  parses_back JSON_stringify JSON_parse ->
  validate JSON_stringify JSON_parse (Some c) = Return c.
Proof. intros H. simpl. now rewrite H. Qed.

(** What a successful answer of the save endpoint means: the name passed
    the guard, and the file now holds the content, sorted when it is an
    array. *)
Lemma save_json_success (fs fs' : fsys text) (file content : option json)
    (r : response) :
  save fs file content = (r, fs') -> response_ok r = true ->
  exists name c dataToSave,
    check_file file = Return (Some name)
    /\ content = Some c
    /\ match c with
       | JArr items =>
           exists sorted, sorted_by_policy items = Return sorted
                          /\ dataToSave = JArr sorted
       | _ => dataToSave = c
       end
    /\ r = Response 200 (OkCount (count_of dataToSave))
    /\ fs' = <[path_join (DATA_DIR cwd) name := File (JSON_stringify_pretty dataToSave)]> fs.
Proof.
  unfold save_json, catch500, save_json_try.
  destruct (check_file file) as [[name|]|e] eqn:Hc; cbn [bind];
    [| intros [= <- <-] Hs; cbv in Hs; discriminate
     | intros [= <- <-] Hs; cbv in Hs; discriminate].
  destruct (validate _ _ content) as [c|e] eqn:Hv; cbn [bind];
    [| intros [= <- <-] Hs; cbv in Hs; discriminate].
  apply validate_Return in Hv. subst content.
  assert (Hw : forall d,
    match write_data JSON_stringify_pretty cwd fs name d with
    | Return out => out
    | Throw e => (Response 500 (ErrorOf e), fs)
    end = (r, fs') -> response_ok r = true ->
    r = Response 200 (OkCount (count_of d))
    /\ fs' = <[path_join (DATA_DIR cwd) name := File (JSON_stringify_pretty d)]> fs).
  { intros d. unfold write_data.
    destruct (writeFile _ _ _) as [fs1|e] eqn:Hwf; cbn [bind].
    - apply writeFile_Return in Hwf. intros [= <- <-] _. auto.
    - intros [= <- <-] Hs; cbv in Hs; discriminate. }
  destruct c as [| b | n | s | items | props];
    try (intros H Hs; destruct (Hw _ H Hs) as [-> ->];
         eexists name, _, _; repeat split; reflexivity).
  destruct (sorted_by_policy items) as [sorted|e] eqn:Hsort; cbn [bind];
    [| intros [= <- <-] Hs; cbv in Hs; discriminate].
  destruct (_ && _); [intros [= <- <-] Hs; cbv in Hs; discriminate|].
  intros H Hs. destruct (Hw _ H Hs) as [-> ->].
  exists name, (JArr items), (JArr sorted). repeat split; eauto.
Qed.
(** A request without [content] fails in the validation step. *)
Lemma save_without_content (fs : fsys text) (name : string) :
  check_file (Some (JStr name)) = Return (Some name) ->
  save fs (Some (JStr name)) None = (Response 500 (ErrorOf SyntaxError), fs).
Proof. intros H. unfold save_json, save_json_try. now rewrite H. Qed.
End SaveFacts.

(** ** Properties of the store *)

Section StoreProperties.
Context {text : Type}.
Variable JSON_stringify : json -> text.
Variable JSON_stringify_pretty : json -> text.
Variable JSON_parse : text -> option json.
Variable localeCompare : string -> string -> Z.
Variable coerced_sub : json -> json -> option Z.
Variable ToString : json -> string.
Variable cwd : path.
Variable TOKEN : option string.

#[local] Abbreviation save_handler :=
  (save_json JSON_stringify JSON_stringify_pretty JSON_parse
     localeCompare coerced_sub ToString cwd).
#[local] Abbreviation save_route :=
  (post_save_json JSON_stringify JSON_stringify_pretty JSON_parse
     localeCompare coerced_sub ToString cwd TOKEN).
#[local] Abbreviation plain_handler :=
  (save_json_plain JSON_stringify JSON_stringify_pretty JSON_parse).
#[local] Abbreviation plain_route :=
  (post_save_json_plain JSON_stringify JSON_stringify_pretty JSON_parse TOKEN).
#[local] Abbreviation load := (loadJsonData JSON_parse cwd).
#[local] Abbreviation policy := (sort_records localeCompare coerced_sub ToString).

(** A successful answer of the route is one of the handler. *)
Lemma save_route_success (fs fs' : fsys text) (header : option string)
    (file content : option json) (r : response) :
  save_route header file content fs = (r, fs') -> response_ok r = true ->
  save_handler fs file content = (r, fs').
Proof.
  unfold post_save_json, requireDevToken.
  destruct (token_rejected TOKEN header); [|auto].
  intros [= <- <-] Hs; cbv in Hs; discriminate.
Qed.

(** C1 (as amended).  After a successful save of an array, loading the
    collection returns the saved records, all of them and nothing else,
    in the arrangement the server gave them before the write, and the
    answer counts them all.  When the array holds the records of one
    collection, that arrangement is ascending [displayOrder], with the
    records of equal [displayOrder] in the collation order of their
    name or title. *)
Theorem save_then_load_returns_sorted_array
    (fs fs' : fsys text) (header : option string) (file : string)
    (items : list json) (r : response) :
  parses_back JSON_stringify_pretty JSON_parse ->
  save_route header (Some (JStr file)) (Some (JArr items)) fs = (r, fs') ->
  response_ok r = true ->
  exists loaded,
    load fs' file = Return (JArr loaded)
    /\ Permutation items loaded
    /\ payload r = OkCount (length items)
    /\ (forall has : bool,
          collation_total localeCompare ->
          collation_transitive localeCompare ->
          Forall (fun m => record_with has m = true) items ->
          StronglySorted (record_le localeCompare) loaded).
Proof.
  intros Hback Hsave Hok.
  apply save_route_success in Hsave; [|exact Hok].
  apply save_json_success in Hsave; [|exact Hok].
  destruct Hsave as (name & c & d & Hname & [= <-] & (sorted & Hsort & ->) & -> & ->).
  apply check_file_passed in Hname as ([= <-] & _).
  exists sorted. split.
  { unfold loadJsonData. rewrite lookup_insert_eq. now rewrite Hback. }
  split; [now apply (sort_records_perm _ _ _ _ _ Hsort)|].
  split.
  - cbn. f_equal. now apply (sort_records_length _ _ _ _ _ Hsort).
  - intros has Htotal Htrans Hrec.
    exact (sort_records_sorted localeCompare coerced_sub ToString
             Htotal Htrans has items sorted Hrec Hsort).
Qed.

(** The records of one collection are persisted in the order of the
    policy: ascending [displayOrder], and by the collation of the secondary
    key among records of equal [displayOrder]; Bob and Alice, both at
    position 0, are arranged as Alice, Bob. *)
Theorem persisted_array_is_sorted :
  collation_total localeCompare ->
  collation_transitive localeCompare ->
  (0 < localeCompare "Bob" "Alice")%Z ->
  (forall (has : bool) (items : list json),
      Forall (fun r => record_with has r = true) items ->
      exists sorted,
        policy items = Return sorted
        /\ Permutation items sorted
        /\ StronglySorted (record_le localeCompare) sorted
        /\ forall (fs fs' : fsys text) header file r,
             save_route header (Some (JStr file)) (Some (JArr items)) fs = (r, fs') ->
             response_ok r = true ->
             fs' !! path_join (DATA_DIR cwd) file
             = Some (File (JSON_stringify_pretty (JArr sorted))))
  /\ policy [member "Bob" 0; member "Alice" 0]
     = Return [member "Alice" 0; member "Bob" 0].
Proof.
  intros Htotal Htrans Hbob. split.
  - intros has items Hrec.
    destruct (sort_records_total localeCompare coerced_sub ToString items)
      as (sorted & Hsort).
    { eapply Forall_impl; [exact Hrec|]. intros r. apply record_with_is_record. }
    exists sorted. split; [exact Hsort|].
    split; [now apply (sort_records_perm _ _ _ _ _ Hsort)|].
    split;
      [exact (sort_records_sorted localeCompare coerced_sub ToString
                Htotal Htrans has items sorted Hrec Hsort)|].
    intros fs fs' header file r Hsave Hok.
    apply save_route_success in Hsave; [|exact Hok].
    apply save_json_success in Hsave; [|exact Hok].
    destruct Hsave as (name & c & d & Hname & [= <-] & (sorted' & Hsort' & ->) & _ & ->).
    apply check_file_passed in Hname as ([= <-] & _).
    rewrite Hsort in Hsort'. injection Hsort' as <-.
    apply lookup_insert_eq.
  - cbn. destruct (Z.ltb_spec 0 (localeCompare "Bob" "Alice")); [reflexivity|lia].
Qed.

(** The theorem above is about the records of one collection.  In an
    array that mixes records at position 0 with a record that has no
    [displayOrder], the comparator answers 0 for every pair of neighbours
    without looking at the names, and the array is arranged as it came. *)
Lemma mixed_array_written_as_sent :
  policy [member "Bob" 0; JObj [("name", JStr "Zed")]; member "Alice" 0]
  = Return [member "Bob" 0; JObj [("name", JStr "Zed")]; member "Alice" 0].
Proof. reflexivity. Qed.

(** C3.  A file name that does not end in [.json], or contains [..] or a
    slash, is answered with 400 "invalid file" whatever the content, by
    the sorting endpoint and by the plain one alike, and the file system
    is left as it was. *)
Theorem save_rejects_unsafe_name
    (fs : fsys text) (file : string) (content : option json) (dir : path) :
  endsWith file ".json" = false \/ includes file ".." = true
    \/ includes file "/" = true ->
  save_handler fs (Some (JStr file)) content
    = (Response 400 (Error "invalid file"), fs)
  /\ plain_handler dir fs (Some (JStr file)) content
    = (Response 400 (Error "invalid file"), fs)
  /\ (forall header,
        snd (save_route header (Some (JStr file)) content fs) = fs
        /\ snd (plain_route dir header (Some (JStr file)) content fs) = fs).
Proof.
  intros Hbad.
  assert (Hc : check_file (Some (JStr file)) = Return None).
  { rewrite check_file_string.
    destruct Hbad as [-> | [-> | ->]]; cbn;
      rewrite ?orb_true_r; reflexivity. }
  assert (H1 : save_handler fs (Some (JStr file)) content
               = (Response 400 (Error "invalid file"), fs)).
  { unfold save_json, save_json_try. now rewrite Hc. }
  assert (H2 : plain_handler dir fs (Some (JStr file)) content
               = (Response 400 (Error "invalid file"), fs)).
  { unfold save_json_plain, save_json_plain_try. now rewrite Hc. }
  split; [exact H1|]. split; [exact H2|].
  intros header. unfold post_save_json, post_save_json_plain, requireDevToken.
  destruct (token_rejected TOKEN header); cbn [snd]; [auto|].
  now rewrite H1, H2.
Qed.

(** C10.  Content that is not an array is written as it came, under any
    valid name ([programs.json] included), and the answer counts 1. *)
Theorem non_array_content_saved_unchanged
    (fs : fsys text) (file : string) (c : json) :
  parses_back JSON_stringify JSON_parse ->
  endsWith file ".json" = true ->
  includes file ".." = false ->
  includes file "/" = false ->
  isArray c = false ->
  writable fs (path_join (DATA_DIR cwd) file) = true ->
  save_handler fs (Some (JStr file)) (Some c)
  = (Response 200 (OkCount 1),
     <[path_join (DATA_DIR cwd) file := File (JSON_stringify_pretty c)]> fs).
Proof.
  intros Hback H1 H2 H3 Harr Hwr.
  unfold save_json, save_json_try.
  rewrite check_file_string, H1, H2, H3. cbn [negb orb bind].
  rewrite (validate_parses _ _ _ Hback). cbn [bind].
  destruct c; try discriminate Harr;
    unfold write_data; rewrite (writeFile_writable _ _ _ Hwr); reflexivity.
Qed.

(** C9 (as amended).  With no token configured, or an empty one, the three
    dev endpoints (and the plain save endpoint) answer 401 to every
    request and touch nothing; with a non-empty token the gate lets
    through exactly the requests whose header is that token. *)
Theorem token_gate_fails_closed :
  (TOKEN = None \/ TOKEN = Some "" ->
   forall (fs : fsys text) header file content q upload now filePath dir,
     save_route header file content fs = (unauthorized, fs)
     /\ plain_route dir header file content fs = (unauthorized, fs)
     /\ post_upload cwd TOKEN header q upload now fs = (unauthorized, fs)
     /\ delete_upload_route cwd TOKEN header filePath fs = (unauthorized, fs))
  /\ (forall t, TOKEN = Some t -> t <> "" ->
      forall (fs : fsys text) header (next : fsys text -> response * fsys text),
        (header = Some t -> requireDevToken TOKEN header next fs = next fs)
        /\ (header <> Some t ->
            requireDevToken TOKEN header next fs = (unauthorized, fs))).
Proof.
  split.
  - intros Hunset fs header file content q upload now filePath dir.
    assert (Hrej : token_rejected TOKEN header = true)
      by (destruct Hunset as [-> | ->]; reflexivity).
    unfold post_save_json, post_save_json_plain, post_upload,
      delete_upload_route, requireDevToken.
    now rewrite Hrej.
  - intros t -> Ht fs header next.
    assert (Hne : String.eqb t "" = false) by now apply String.eqb_neq.
    unfold requireDevToken, token_rejected. cbn. rewrite Hne. cbn.
    split.
    + intros ->. cbn. now rewrite String.eqb_refl.
    + intros Hh. destruct header as [h|]; cbn; [|reflexivity].
      destruct (String.eqb_spec h t) as [->|]; [contradiction|reflexivity].
Qed.

(** *** The reorder mutations of the admin page *)

Variable DEV : bool.
Variable DEV_TOKEN : option string.

#[local] Abbreviation save_order :=
  (saveOrderMutation JSON_stringify JSON_stringify_pretty JSON_parse
     localeCompare coerced_sub ToString cwd TOKEN DEV DEV_TOKEN).

#[local] Abbreviation save_members :=
  (saveMemberOrder JSON_stringify JSON_stringify_pretty JSON_parse
     localeCompare coerced_sub ToString cwd TOKEN DEV DEV_TOKEN).
#[local] Abbreviation save_classes :=
  (saveClassOrder JSON_stringify JSON_stringify_pretty JSON_parse
     localeCompare coerced_sub ToString cwd TOKEN DEV DEV_TOKEN).
#[local] Abbreviation save_programs :=
  (saveProgramOrder JSON_stringify JSON_stringify_pretty JSON_parse
     localeCompare coerced_sub ToString cwd TOKEN DEV DEV_TOKEN).
#[local] Abbreviation save_heroes :=
  (saveHeroOrder JSON_stringify JSON_stringify_pretty JSON_parse
     localeCompare coerced_sub ToString cwd TOKEN DEV DEV_TOKEN).

Lemma save_order_readback (file : string) (fs fs' : fsys text)
    (ordered updated : list obj) :
  parses_back JSON_stringify_pretty JSON_parse ->
  save_order file fs ordered = (Return updated, fs') ->
  updated = renumber ordered
  /\ load fs' file = Return (JArr (JObj <$> updated)).
Proof.
  intros Hback. unfold saveOrderMutation, saveToJson.
  destruct DEV; cbn [negb]; [|discriminate].
  destruct (post_save_json _ _ _ _ _ _ _ _ _ _ _ _) as [r fs1] eqn:Hsave.
  destruct (response_ok r) eqn:Hok; [|discriminate].
  intros [= <- <-]. split; [reflexivity|].
  apply save_route_success in Hsave; [|exact Hok].
  apply save_json_success in Hsave; [|exact Hok].
  destruct Hsave as (name & c & d & Hname & [= <-] & (sorted & Hsort & ->) & _ & ->).
  apply check_file_passed in Hname as ([= <-] & _).
  change (renumber ordered) with (renumber_from 0 ordered) in Hsort |- *.
  rewrite sort_renumbered in Hsort. injection Hsort as <-.
  unfold loadJsonData. rewrite lookup_insert_eq. now rewrite Hback.
Qed.

End StoreProperties.

(** ** Uploads and deletions *)

(** The file filter accepts only when both tests succeed. *)
Lemma fileFilter_needs_both {text : Type} (f : upload_file (text := text)) :
  fileFilter f = true ->
  allowedTypes_test (mimetype f) = true
  /\ allowedTypes_test (toLowerCase (extname (originalname f))) = true.
Proof. unfold fileFilter. intros H. now apply andb_prop in H. Qed.

(** Whatever is in the allowed set passes the filter. *)
Lemma fileFilter_accepts_allowed {text : Type} (f : upload_file (text := text)) :
  extension_allowed (originalname f) = true ->
  mimetype_allowed (mimetype f) = true ->
  fileFilter f = true.
Proof.
  unfold extension_allowed, mimetype_allowed, fileFilter, allowed_image_types.
  cbn [existsb]. intros He Hm.
  assert (Hext : allowedTypes_test (toLowerCase (extname (originalname f))) = true).
  { repeat (apply orb_prop in He as [He|He];
            [apply String.eqb_eq in He; rewrite He; reflexivity|]).
    discriminate He. }
  assert (Hmime : allowedTypes_test (mimetype f) = true).
  { repeat (apply orb_prop in Hm as [Hm|Hm];
            [apply String.eqb_eq in Hm; rewrite Hm; reflexivity|]).
    discriminate Hm. }
  now rewrite Hext, Hmime.
Qed.

(** An executable renamed to [.png] keeps its MIME type and is refused. *)
Lemma fileFilter_refuses_renamed_executable {text : Type} (d : text) :
  fileFilter (UploadFile "setup.png" "application/x-msdownload" 4096 d) = false.
Proof. reflexivity. Qed.

(** C6 (failing input).  The two tests search for the type names anywhere
    in the extension and in the MIME type: [report.pngx] sent as
    [text/x-gift] is accepted, although neither its extension nor its MIME
    type is in the allowed set. *)
Theorem fileFilter_accepts_outside_allowed_set :
  fileFilter Ref.spoofed_upload = true
  /\ extname (originalname Ref.spoofed_upload) = ".pngx"
  /\ extension_allowed (originalname Ref.spoofed_upload) = false
  /\ mimetype_allowed (mimetype Ref.spoofed_upload) = false.
Proof. repeat split; reflexivity. Qed.

(** For a recognised category the public path names the directory the
    file went to. *)
Lemma recognised_category_kept (q : option string) :
  existsb (String.eqb (query_category q)) allowedCategories = true ->
  finalCategory q = query_category q.
Proof. unfold finalCategory. now intros ->. Qed.

(** C7 (failing input).  With the unrecognised category [avatars] the
    file is stored in [uploads/misc], while the public path in the answer
    names [uploads/avatars], where nothing exists. *)
Theorem upload_public_path_names_wrong_directory :
  fst (post_upload Ref.cwd Ref.token (Some "secret") (Some "avatars")
         (Some Ref.photo_upload) 1700000000000 Ref.fs0)
  = Response 200 (OkPath "/uploads/avatars/photo-1700000000000.png")
  /\ snd (post_upload Ref.cwd Ref.token (Some "secret") (Some "avatars")
            (Some Ref.photo_upload) 1700000000000 Ref.fs0)
     !! (UPLOAD_DIR Ref.cwd ++ ["misc"; "photo-1700000000000.png"])%list
     = Some (File (JStr "image bytes"))
  /\ snd (post_upload Ref.cwd Ref.token (Some "secret") (Some "avatars")
            (Some Ref.photo_upload) 1700000000000 Ref.fs0)
     !! path_join (PUBLIC_DIR Ref.cwd) "/uploads/avatars/photo-1700000000000.png"
     = None.
Proof. vm_compute. repeat split; reflexivity. Qed.

Lemma path_join_traversal (cwd : path) :
  path_join (PUBLIC_DIR cwd) "/uploads/../data/members.json"
  = (DATA_DIR cwd ++ ["members.json"])%list.
Proof.
  unfold path_join, PUBLIC_DIR, DATA_DIR. cbn.
  rewrite rev_app_distr. cbn. rewrite rev_involutive.
  now rewrite <- !app_assoc.
Qed.

(** A path that does not start with [/uploads/] is refused and nothing
    is removed. *)
Lemma delete_refuses_other_prefix {text : Type} (cwd : path) (fs : fsys text)
    (filePath : string) :
  startsWith filePath "/uploads/" = false ->
  delete_upload cwd fs (Some (JStr filePath))
  = (Response 400 (Error "invalid file path"), fs).
Proof.
  intros H. unfold delete_upload, delete_upload_try.
  destruct (negb (truthy (Some (JStr filePath)))); [reflexivity|].
  now rewrite H.
Qed.

(** A path below [/uploads/] at which nothing exists is answered with 404,
    and a file there is removed. *)
Lemma delete_missing_target {text : Type} (cwd : path) (fs : fsys text)
    (filePath : string) :
  startsWith filePath "/uploads/" = true ->
  access fs (path_join (PUBLIC_DIR cwd) filePath) = false ->
  delete_upload cwd fs (Some (JStr filePath))
  = (Response 404 (Error "file not found"), fs).
Proof.
  intros Hp Ha. unfold delete_upload, delete_upload_try.
  destruct filePath as [|c rest]; [discriminate Hp|].
  cbn [truthy negb String.eqb]. rewrite Hp, Ha. reflexivity.
Qed.

Lemma delete_existing_file {text : Type} (cwd : path) (fs : fsys text)
    (filePath : string) (d : text) :
  startsWith filePath "/uploads/" = true ->
  fs !! path_join (PUBLIC_DIR cwd) filePath = Some (File d) ->
  delete_upload cwd fs (Some (JStr filePath))
  = (Response 200 Ok_, delete (path_join (PUBLIC_DIR cwd) filePath) fs).
Proof.
  intros Hp Hf. unfold delete_upload, delete_upload_try.
  destruct filePath as [|c rest]; [discriminate Hp|].
  cbn [truthy negb String.eqb]. rewrite Hp. cbn [negb].
  assert (Ha : access fs (path_join (PUBLIC_DIR cwd) (String c rest)) = true).
  { unfold access. rewrite Hf. now destruct (path_join _ _). }
  rewrite Ha. cbn [negb]. unfold unlink. now rewrite Hf.
Qed.

(** C8 (failing input).  The guard looks at the prefix of the path as
    sent, not at the place it resolves to: [/uploads/../data/members.json]
    passes, and the handler removes the members collection from the data
    directory and answers 200. *)
Theorem delete_escapes_uploads_root {text : Type} (cwd : path)
    (fs : fsys text) (d : text) :
  fs !! (DATA_DIR cwd ++ ["members.json"])%list = Some (File d) ->
  below (UPLOAD_DIR cwd) (path_join (PUBLIC_DIR cwd) "/uploads/../data/members.json")
  = false
  /\ delete_upload cwd fs (Some (JStr "/uploads/../data/members.json"))
     = (Response 200 Ok_, delete (DATA_DIR cwd ++ ["members.json"])%list fs).
Proof.
  intros Hfile. rewrite path_join_traversal. split.
  - unfold below, UPLOAD_DIR, DATA_DIR. apply andb_false_iff. right.
    apply bool_decide_eq_false. intros H.
    rewrite <- app_assoc, length_app, take_app_add in H.
    apply app_inv_head in H. discriminate.
  - unfold delete_upload, delete_upload_try. cbn [truthy negb].
    change (String.eqb "/uploads/../data/members.json" "") with false.
    cbn [negb].
    change (startsWith "/uploads/../data/members.json" "/uploads/") with true.
    cbn [negb]. rewrite path_join_traversal.
    assert (Hacc : access fs (DATA_DIR cwd ++ ["members.json"])%list = true).
    { unfold access. rewrite Hfile.
      now destruct (DATA_DIR cwd ++ ["members.json"])%list. }
    rewrite Hacc. cbn [negb]. unfold unlink. now rewrite Hfile.
Qed.

(** ** The properties at concrete requests *)

Lemma Ref_localeCompare_total : collation_total Ref.localeCompare.
Proof.
  intros a b. unfold Ref.localeCompare.
  rewrite (String.compare_antisym a b).
  destruct (String.compare b a); cbn; lia.
Qed.

Lemma Ref_localeCompare_transitive : collation_transitive Ref.localeCompare.
Proof.
  intros a b c. unfold Ref.localeCompare.
  destruct (String.compare a b) eqn:Hab; [| |cbn; lia];
    destruct (String.compare b c) eqn:Hbc; try (cbn; lia); intros _ _.
  - apply String.compare_eq_iff in Hab, Hbc. subst.
    replace (String.compare c c) with Eq; [lia|].
    symmetry. exact (proj2 (OrderedTypeEx.String_as_OT.cmp_eq c c) eq_refl).
  - apply String.compare_eq_iff in Hab. subst. rewrite Hbc. lia.
  - apply String.compare_eq_iff in Hbc. subst. rewrite Hab. lia.
  - apply OrderedTypeEx.String_as_OT.cmp_lt in Hab, Hbc.
    pose proof (OrderedTypeEx.String_as_OT.lt_trans _ _ _ Hab Hbc) as Hac.
    apply OrderedTypeEx.String_as_OT.cmp_lt in Hac.
    unfold OrderedTypeEx.String_as_OT.cmp in Hac. rewrite Hac. lia.
Qed.

Lemma Ref_parses_back : parses_back Ref.JSON_stringify Ref.JSON_parse.
Proof. intros v. reflexivity. Qed.

(** C1 (counterexample to the claim as stated).  Saving Bob (position 1)
    before Alice (position 0) succeeds, and the load that follows does not
    return the array that was saved. *)
Lemma save_load_roundtrip_counterexample :
  response_ok
    (fst (Ref.post_save_json Ref.token (Some "secret") (Some (JStr "members.json"))
            (Some (JArr Ref.unordered_members)) Ref.fs0)) = true
  /\ Ref.loadJsonData
       (snd (Ref.post_save_json Ref.token (Some "secret") (Some (JStr "members.json"))
               (Some (JArr Ref.unordered_members)) Ref.fs0))
       "members.json"
     <> Return (JArr Ref.unordered_members).
Proof. split; [reflexivity|]. vm_compute. discriminate. Qed.

(** C2 (failing input).  Bob and Alice are both at position 0, and Zed,
    who has no [displayOrder], stands between them.  The comparator takes
    a missing [displayOrder] for 0 and answers 0 for Zed against either
    neighbour, whichever is its first argument, without looking at the
    names, while it puts Bob after Alice: it is no consistent order on
    these records.  The save is answered with success and the file holds
    the array as it was sent, Bob before Alice. *)
Theorem tied_records_written_unsorted :
  compareRecords Ref.localeCompare Ref.coerced_sub Ref.ToString
    (member "Bob" 0) (JObj [("name", JStr "Zed")]) = Return (Some 0%Z)
  /\ compareRecords Ref.localeCompare Ref.coerced_sub Ref.ToString
       (JObj [("name", JStr "Zed")]) (member "Bob" 0) = Return (Some 0%Z)
  /\ compareRecords Ref.localeCompare Ref.coerced_sub Ref.ToString
       (JObj [("name", JStr "Zed")]) (member "Alice" 0) = Return (Some 0%Z)
  /\ compareRecords Ref.localeCompare Ref.coerced_sub Ref.ToString
       (member "Alice" 0) (JObj [("name", JStr "Zed")]) = Return (Some 0%Z)
  /\ compareRecords Ref.localeCompare Ref.coerced_sub Ref.ToString
       (member "Bob" 0) (member "Alice" 0) = Return (Some 1%Z)
  /\ displayOrder_of (member "Bob" 0) = displayOrder_of (member "Alice" 0)
  /\ fst (Ref.post_save_json Ref.token (Some "secret") (Some (JStr "members.json"))
            (Some (JArr Sample.mixed_members)) Ref.fs0)
     = Response 200 (OkCount 3)
  /\ snd (Ref.post_save_json Ref.token (Some "secret") (Some (JStr "members.json"))
            (Some (JArr Sample.mixed_members)) Ref.fs0) !! Ref.members_file
     = Some (File (JArr [member "Bob" 0; JObj [("name", JStr "Zed")];
                         member "Alice" 0])).
Proof. vm_compute. repeat split; reflexivity. Qed.


(** Bob before Alice, saved to [members.json] and loaded again. *)
Lemma save_then_load_returns_sorted_array_witness :
  parses_back Ref.JSON_stringify Ref.JSON_parse
  /\ response_ok
       (fst (Ref.post_save_json Ref.token (Some "secret") (Some (JStr "members.json"))
               (Some (JArr Ref.unordered_members)) Ref.fs0)) = true
  /\ collation_total Ref.localeCompare
  /\ collation_transitive Ref.localeCompare
  /\ Forall (fun m => record_with true m = true) Ref.unordered_members
  /\ exists loaded,
       Ref.loadJsonData
         (snd (Ref.post_save_json Ref.token (Some "secret")
                 (Some (JStr "members.json"))
                 (Some (JArr Ref.unordered_members)) Ref.fs0))
         "members.json"
       = Return (JArr loaded)
       /\ Permutation Ref.unordered_members loaded
       /\ payload
            (fst (Ref.post_save_json Ref.token (Some "secret")
                    (Some (JStr "members.json"))
                    (Some (JArr Ref.unordered_members)) Ref.fs0))
          = OkCount (length Ref.unordered_members)
       /\ StronglySorted (record_le Ref.localeCompare) loaded.
Proof.
  assert (Hrec : Forall (fun m => record_with true m = true) Ref.unordered_members)
    by (repeat constructor).
  split; [exact Ref_parses_back|]. split; [reflexivity|].
  split; [exact Ref_localeCompare_total|].
  split; [exact Ref_localeCompare_transitive|]. split; [exact Hrec|].
  destruct (save_then_load_returns_sorted_array
              Ref.JSON_stringify Ref.JSON_stringify Ref.JSON_parse
              Ref.localeCompare Ref.coerced_sub Ref.ToString Ref.cwd Ref.token
              Ref.fs0
              (snd (Ref.post_save_json Ref.token (Some "secret")
                      (Some (JStr "members.json"))
                      (Some (JArr Ref.unordered_members)) Ref.fs0))
              (Some "secret") "members.json" Ref.unordered_members
              (fst (Ref.post_save_json Ref.token (Some "secret")
                      (Some (JStr "members.json"))
                      (Some (JArr Ref.unordered_members)) Ref.fs0))
              Ref_parses_back (surjective_pairing _) eq_refl)
    as (loaded & Hload & Hperm & Hcount & Hsorted).
  exists loaded. split; [exact Hload|]. split; [exact Hperm|].
  split; [exact Hcount|].
  exact (Hsorted true Ref_localeCompare_total Ref_localeCompare_transitive Hrec).
Defined.

(** Carol, Bob and Alice under code-point collation. *)
Lemma persisted_array_is_sorted_witness :
  collation_total Ref.localeCompare
  /\ collation_transitive Ref.localeCompare
  /\ (0 < Ref.localeCompare "Bob" "Alice")%Z
  /\ Forall (fun r => record_with true r = true) Ref.tied_members
  /\ (exists sorted,
        Ref.sort_records Ref.tied_members = Return sorted
        /\ Permutation Ref.tied_members sorted
        /\ StronglySorted (record_le Ref.localeCompare) sorted
        /\ forall (fs fs' : fsys Ref.text) header file r,
             Ref.post_save_json Ref.token header (Some (JStr file))
               (Some (JArr Ref.tied_members)) fs = (r, fs') ->
             response_ok r = true ->
             fs' !! path_join (DATA_DIR Ref.cwd) file
             = Some (File (Ref.JSON_stringify (JArr sorted))))
  /\ Ref.sort_records [member "Bob" 0; member "Alice" 0]
     = Return [member "Alice" 0; member "Bob" 0].
Proof.
  assert (Hrec : Forall (fun r => record_with true r = true) Ref.tied_members)
    by (repeat constructor).
  destruct (persisted_array_is_sorted
              Ref.JSON_stringify Ref.JSON_stringify Ref.JSON_parse
              Ref.localeCompare Ref.coerced_sub Ref.ToString Ref.cwd Ref.token
              Ref_localeCompare_total Ref_localeCompare_transitive eq_refl)
    as [Hall Hpair].
  repeat (split; [first [exact Ref_localeCompare_total
                        | exact Ref_localeCompare_transitive
                        | reflexivity
                        | exact Hrec]|]).
  split; [exact (Hall true Ref.tied_members Hrec) | exact Hpair].
Defined.

(** A name that climbs out of the data directory. *)
Lemma save_rejects_unsafe_name_witness :
  (endsWith "../secrets.json" ".json" = false
   \/ includes "../secrets.json" ".." = true
   \/ includes "../secrets.json" "/" = true)
  /\ Ref.save_json Ref.fs_with_members (Some (JStr "../secrets.json"))
       (Some (JArr Ref.tied_members))
     = (Response 400 (Error "invalid file"), Ref.fs_with_members)
  /\ save_json_plain Ref.JSON_stringify Ref.JSON_stringify Ref.JSON_parse
       (SRC_DATA_DIR Ref.cwd) Ref.fs_with_members (Some (JStr "../secrets.json"))
       (Some (JArr Ref.tied_members))
     = (Response 400 (Error "invalid file"), Ref.fs_with_members)
  /\ (forall header,
        snd (Ref.post_save_json Ref.token header (Some (JStr "../secrets.json"))
               (Some (JArr Ref.tied_members)) Ref.fs_with_members)
        = Ref.fs_with_members
        /\ snd (post_save_json_plain Ref.JSON_stringify Ref.JSON_stringify
                  Ref.JSON_parse Ref.token (SRC_DATA_DIR Ref.cwd) header
                  (Some (JStr "../secrets.json"))
                  (Some (JArr Ref.tied_members)) Ref.fs_with_members)
           = Ref.fs_with_members).
Proof.
  split; [right; left; reflexivity|].
  apply (save_rejects_unsafe_name
           Ref.JSON_stringify Ref.JSON_stringify Ref.JSON_parse
           Ref.localeCompare Ref.coerced_sub Ref.ToString Ref.cwd Ref.token
           Ref.fs_with_members "../secrets.json"
           (Some (JArr Ref.tied_members)) (SRC_DATA_DIR Ref.cwd)).
  right; left; reflexivity.
Defined.


(** An object sent to [programs.json]. *)
Lemma non_array_content_saved_unchanged_witness :
  parses_back Ref.JSON_stringify Ref.JSON_parse
  /\ endsWith "programs.json" ".json" = true
  /\ includes "programs.json" ".." = false
  /\ includes "programs.json" "/" = false
  /\ isArray Ref.site_settings = false
  /\ writable Ref.fs0 (path_join (DATA_DIR Ref.cwd) "programs.json") = true
  /\ Ref.save_json Ref.fs0 (Some (JStr "programs.json")) (Some Ref.site_settings)
     = (Response 200 (OkCount 1),
        <[path_join (DATA_DIR Ref.cwd) "programs.json"
            := File (Ref.JSON_stringify Ref.site_settings)]> Ref.fs0).
Proof.
  split; [exact Ref_parses_back|].
  do 5 (split; [reflexivity|]).
  apply (non_array_content_saved_unchanged
           Ref.JSON_stringify Ref.JSON_stringify Ref.JSON_parse
           Ref.localeCompare Ref.coerced_sub Ref.ToString Ref.cwd
           Ref.fs0 "programs.json" Ref.site_settings Ref_parses_back);
    reflexivity.
Defined.

(** C9 (counterexample to the claim as stated).  With the token set to the
    empty string, a request whose header equals the token is still
    refused. *)
Lemma empty_token_counterexample :
  ~ (token_rejected (Some "") (Some "") = false
     <-> Some "" = Some "" :> option string).
Proof. intros [_ H]. specialize (H eq_refl). discriminate H. Qed.

(** No token at all, and the token [secret]. *)
Lemma token_gate_fails_closed_witness :
  ((@None string = None \/ @None string = Some "")
   /\ forall (fs : fsys Ref.text) header file content q upload now filePath dir,
       Ref.post_save_json None header file content fs = (unauthorized, fs)
       /\ post_save_json_plain Ref.JSON_stringify Ref.JSON_stringify
            Ref.JSON_parse None dir header file content fs = (unauthorized, fs)
       /\ post_upload Ref.cwd None header q upload now fs = (unauthorized, fs)
       /\ delete_upload_route Ref.cwd None header filePath fs = (unauthorized, fs))
  /\ (Ref.token = Some "secret" /\ "secret" <> ""
      /\ forall (fs : fsys Ref.text) header
                (next : fsys Ref.text -> response * fsys Ref.text),
          (header = Some "secret" ->
           requireDevToken Ref.token header next fs = next fs)
          /\ (header <> Some "secret" ->
              requireDevToken Ref.token header next fs = (unauthorized, fs))).
Proof.
  split.
  - split; [left; reflexivity|].
    apply (proj1 (token_gate_fails_closed
                    Ref.JSON_stringify Ref.JSON_stringify Ref.JSON_parse
                    Ref.localeCompare Ref.coerced_sub Ref.ToString Ref.cwd None)).
    left; reflexivity.
  - split; [reflexivity|]. split; [discriminate|].
    apply (proj2 (token_gate_fails_closed
                    Ref.JSON_stringify Ref.JSON_stringify Ref.JSON_parse
                    Ref.localeCompare Ref.coerced_sub Ref.ToString Ref.cwd
                    Ref.token) "secret"); [reflexivity | discriminate].
Defined.


(** The members collection deleted through the upload endpoint. *)
Lemma delete_escapes_uploads_root_witness :
  Ref.fs_with_members !! (DATA_DIR Ref.cwd ++ ["members.json"])%list
  = Some (File (JArr Ref.tied_members))
  /\ below (UPLOAD_DIR Ref.cwd)
       (path_join (PUBLIC_DIR Ref.cwd) "/uploads/../data/members.json") = false
  /\ delete_upload Ref.cwd Ref.fs_with_members
       (Some (JStr "/uploads/../data/members.json"))
     = (Response 200 Ok_,
        delete (DATA_DIR Ref.cwd ++ ["members.json"])%list Ref.fs_with_members).
Proof.
  split; [reflexivity|].
  apply (delete_escapes_uploads_root Ref.cwd Ref.fs_with_members
           (JArr Ref.tied_members)).
  reflexivity.
Defined.

(** ** File names and paths *)

Lemma includes_slash_cons (c : ascii) (s : string) :
  includes (String c s) "/" = Ascii.eqb "/" c || includes s "/".
Proof. cbn [includes startsWith]. now destruct (Ascii.eqb "/" c). Qed.

Lemma includes_slash_append (a b : string) :
  includes (a +:+ b) "/" = includes a "/" || includes b "/".
Proof.
  induction a as [|c a IH]; [reflexivity|].
  change (String c a +:+ b) with (String c (a +:+ b)).
  rewrite !includes_slash_cons, IH. now rewrite orb_assoc.
Qed.

Lemma includes_slash_substring (s : string) (n m : nat) :
  includes s "/" = false -> includes (String.substring n m s) "/" = false.
Proof.
  revert n m. induction s as [|c s IH]; intros n m H.
  - now destruct n, m.
  - rewrite includes_slash_cons in H. apply orb_false_elim in H as [Hc Hs].
    destruct n as [|n]; cbn [String.substring].
    + destruct m as [|m]; [reflexivity|].
      rewrite includes_slash_cons, Hc. now apply IH.
    + now apply IH.
Qed.

Lemma split_slash_nonempty (s : string) : split_slash s <> [].
Proof.
  induction s as [|c s IH]; cbn [split_slash]; [discriminate|].
  destruct (Ascii.eqb c "/"); [discriminate|].
  now destruct (split_slash s).
Qed.

Lemma split_slash_segments (s : string) :
  Forall (fun seg => includes seg "/" = false) (split_slash s).
Proof.
  induction s as [|c s IH]; cbn [split_slash]; [repeat constructor|].
  destruct (Ascii.eqb c "/") eqn:Hc; [constructor; [reflexivity | exact IH]|].
  destruct (split_slash s) as [|seg rest]; [repeat constructor|].
  - rewrite includes_slash_cons, Ascii.eqb_sym, Hc. reflexivity.
  - apply Forall_cons in IH as [Hseg Hrest]. constructor; [|exact Hrest].
    rewrite includes_slash_cons, Ascii.eqb_sym, Hc. exact Hseg.
Qed.

Lemma last_component_no_slash (name : string) :
  includes (last_component name) "/" = false.
Proof.
  unfold last_component.
  pose proof (split_slash_segments name) as H.
  pose proof (split_slash_nonempty name) as Hne.
  induction H as [|seg rest Hseg Hrest IH]; [contradiction|].
  destruct rest as [|seg' rest']; [exact Hseg|].
  apply IH. discriminate.
Qed.

Lemma extname_no_slash (name : string) : includes (extname name) "/" = false.
Proof.
  unfold extname. destruct (last_dot _) as [[|i]|]; try reflexivity.
  destruct (String.eqb _ ".."); [reflexivity|].
  apply includes_slash_substring, last_component_no_slash.
Qed.

Lemma basename_no_slash (name ext : string) :
  includes (basename name ext) "/" = false.
Proof.
  unfold basename. destruct (_ && _).
  - apply includes_slash_substring, last_component_no_slash.
  - apply last_component_no_slash.
Qed.

Lemma dash_runs_no_slash (in_run : bool) (s : string) :
  includes (dash_runs in_run s) "/" = false.
Proof.
  revert in_run. induction s as [|c s IH]; intros in_run; [reflexivity|].
  cbn [dash_runs]. destruct (is_lower_alnum c) eqn:Hc.
  - rewrite includes_slash_cons, IH, orb_false_r.
    destruct (Ascii.eqb_spec "/" c) as [<-|]; [discriminate Hc|reflexivity].
  - destruct in_run; [apply IH|].
    rewrite includes_slash_cons, IH. reflexivity.
Qed.

Lemma pretty_N_go_no_slash (x : N) (s : string) :
  includes s "/" = false -> includes (pretty_N_go x s) "/" = false.
Proof.
  revert s. induction (N.lt_wf_0 x) as [x _ IH]; intros s Hs.
  destruct (decide (x = 0)%N) as [->|Hx]; [now rewrite pretty_N_go_0|].
  rewrite pretty_N_go_step by lia.
  apply IH; [apply N.div_lt; lia|].
  rewrite includes_slash_cons, Hs, orb_false_r.
  unfold pretty_N_char. now repeat case_match.
Qed.

Lemma pretty_N_no_slash (x : N) : includes (pretty x) "/" = false.
Proof.
  unfold pretty, pretty_N. case_decide; [reflexivity|].
  now apply pretty_N_go_no_slash.
Qed.

Lemma includes_dash_append (a b : string) :
  includes (a +:+ "-" +:+ b) "-" = true.
Proof.
  induction a as [|c a IH]; [reflexivity|].
  change (String c a +:+ "-" +:+ b) with (String c (a +:+ "-" +:+ b)).
  cbn [includes]. rewrite IH. apply orb_true_r.
Qed.

Lemma dashed_name_proper (a b : string) :
  includes a "/" = false -> includes b "/" = false ->
  proper_segment (a +:+ "-" +:+ b).
Proof.
  intros Ha Hb. split.
  - rewrite !includes_slash_append, Ha, Hb. reflexivity.
  - pose proof (includes_dash_append a b) as H.
    repeat split; intros E; rewrite E in H; discriminate H.
Qed.

Lemma normalize_onto_proper (stack : list string) (seg : string)
    (rest : list string) :
  proper_segment seg ->
  normalize_onto stack (seg :: rest) = normalize_onto (seg :: stack) rest.
Proof.
  intros (_ & H0 & H1 & H2). cbn [normalize_onto].
  apply String.eqb_neq in H0, H1, H2. now rewrite H0, H1, H2.
Qed.

Lemma path_join_segment (base : path) (s : string) :
  proper_segment s -> path_join base s = (base ++ [s])%list.
Proof.
  intros Hs. unfold path_join.
  rewrite (split_slash_plain s) by apply Hs.
  rewrite normalize_onto_proper by exact Hs.
  cbn. now rewrite rev_involutive.
Qed.

Lemma split_slash_append (a b : string) :
  includes a "/" = false ->
  split_slash (a +:+ "/" +:+ b) = a :: split_slash b.
Proof.
  induction a as [|c a IH]; intros Ha; [reflexivity|].
  rewrite includes_slash_cons in Ha. apply orb_false_elim in Ha as [Hc Ha].
  change (String c a +:+ "/" +:+ b) with (String c (a +:+ "/" +:+ b)).
  cbn [split_slash]. rewrite Ascii.eqb_sym, Hc, (IH Ha). reflexivity.
Qed.

Lemma filename_proper {text : Type} (f : upload_file (text := text)) (now : N) :
  proper_segment (filename f now).
Proof.
  unfold filename. apply dashed_name_proper.
  - apply dash_runs_no_slash.
  - rewrite includes_slash_append, pretty_N_no_slash, extname_no_slash. reflexivity.
Qed.

Lemma newFilename_proper {text : Type} (f : upload_file (text := text)) (now : N) :
  proper_segment (newFilename f now).
Proof.
  unfold newFilename. apply dashed_name_proper.
  - apply basename_no_slash.
  - rewrite includes_slash_append, pretty_N_no_slash, extname_no_slash. reflexivity.
Qed.

Lemma allowed_category_proper (c : string) :
  existsb (String.eqb c) allowedCategories = true -> proper_segment c.
Proof.
  unfold allowedCategories. cbn [existsb]. intros H.
  repeat (apply orb_prop in H as [H|H];
          [apply String.eqb_eq in H; subst c;
           repeat split; try reflexivity; discriminate|]).
  discriminate H.
Qed.

(** The public path of an upload resolves, below the public directory,
    to the place the segments name. *)
Lemma public_path_resolves (cwd : path) (category name : string) :
  proper_segment category -> proper_segment name ->
  path_join (PUBLIC_DIR cwd) ("/uploads/" +:+ category +:+ "/" +:+ name)
  = (UPLOAD_DIR cwd ++ [category; name])%list.
Proof.
  intros Hc Hn. unfold path_join.
  change ("/uploads/" +:+ category +:+ "/" +:+ name)
    with ("" +:+ "/" +:+ "uploads" +:+ "/" +:+ category +:+ "/" +:+ name).
  rewrite !split_slash_append by (reflexivity || apply Hc).
  rewrite (split_slash_plain name) by apply Hn.
  destruct Hc as (_ & C0 & C1 & C2). destruct Hn as (_ & N0 & N1 & N2).
  apply String.eqb_neq in C0, C1, C2, N0, N1, N2.
  cbn [normalize_onto String.eqb orb Ascii.eqb Bool.eqb].
  rewrite C0, C1, C2, N0, N1, N2. cbn [orb].
  unfold PUBLIC_DIR, UPLOAD_DIR. cbn [rev].
  rewrite rev_involutive, <- !app_assoc. reflexivity.
Qed.

Lemma plain_public_path_resolves (cwd : path) (name : string) :
  proper_segment name ->
  path_join (PUBLIC_DIR cwd) ("/uploads/" +:+ name)
  = (UPLOAD_DIR cwd ++ [name])%list.
Proof.
  intros Hn. unfold path_join.
  change ("/uploads/" +:+ name) with ("" +:+ "/" +:+ "uploads" +:+ "/" +:+ name).
  rewrite !split_slash_append by reflexivity.
  rewrite (split_slash_plain name) by apply Hn.
  destruct Hn as (_ & N0 & N1 & N2).
  apply String.eqb_neq in N0, N1, N2.
  cbn [normalize_onto String.eqb orb Ascii.eqb Bool.eqb].
  rewrite N0, N1, N2. cbn [orb].
  unfold PUBLIC_DIR, UPLOAD_DIR. cbn [rev].
  rewrite rev_involutive, <- !app_assoc. reflexivity.
Qed.

Lemma string_length_append (a b : string) :
  String.length (a +:+ b) = (String.length a + String.length b)%nat.
Proof.
  induction a as [|c a IH]; [reflexivity|].
  change (String c a +:+ b) with (String c (a +:+ b)).
  cbn [String.length]. now rewrite IH.
Qed.

Lemma string_append_inv_tail (a b e : string) : a +:+ e = b +:+ e -> a = b.
Proof.
  revert b. induction a as [|c a IH]; intros [|d b] H.
  - reflexivity.
  - apply (f_equal String.length) in H.
    rewrite !string_length_append in H. cbn in H. lia.
  - apply (f_equal String.length) in H.
    rewrite !string_length_append in H. cbn in H. lia.
  - cbn in H. injection H as -> H. f_equal. now apply IH.
Qed.

(** ** Facts about the file system *)

Lemma is_dir_insert_File {data : Type} (fs : fsys data) (q p : path) (d : data) :
  p <> [] ->
  is_dir (<[q := File d]> fs) p = if bool_decide (p = q) then false else is_dir fs p.
Proof.
  intros Hp. unfold is_dir. destruct p as [|s p]; [contradiction|].
  case_bool_decide as E.
  - subst q. now rewrite lookup_insert_eq.
  - now rewrite lookup_insert_ne by congruence.
Qed.

Lemma parent_snoc (base : path) (s : string) : parent (base ++ [s])%list = base.
Proof. unfold parent. apply removelast_last. Qed.

Lemma mkdir_from_files {data : Type} (todo : list string) (fs fs1 : fsys data)
    (done : path) :
  mkdir_from fs done todo = Return fs1 ->
  forall p d, fs1 !! p = Some (File d) <-> fs !! p = Some (File d).
Proof.
  revert fs done. induction todo as [|seg rest IH]; intros fs done H p d.
  - injection H as <-. reflexivity.
  - cbn [mkdir_from] in H.
    assert (Hstep : mkdir_from (<[(done ++ [seg])%list := Dir]> fs)
                      (done ++ [seg])%list rest = Return fs1
                    /\ forall d', fs !! (done ++ [seg])%list <> Some (File d')).
    { destruct (fs !! (done ++ [seg])%list) as [[d'|]|]; try discriminate H;
        split; try exact H; intros d''; discriminate. }
    destruct Hstep as [Hrec Hnot].
    rewrite (IH _ _ Hrec p d).
    destruct (decide (p = (done ++ [seg])%list)) as [->|Hne].
    + rewrite lookup_insert_eq. split; [discriminate|].
      intros E. now destruct (Hnot d).
    + now rewrite lookup_insert_ne by congruence.
Qed.

(** ** The upload endpoint *)

Section UploadFacts.
Context {text : Type}.
Variable cwd : path.
Variable TOKEN : option string.

#[local] Abbreviation upload_route := (post_upload (text := text) cwd TOKEN).

(** What a successful answer of the upload endpoint means. *)
Lemma post_upload_success (fs fs' : fsys text) (header q : option string)
    (file : option (@upload_file text)) (now : N) (r : response) :
  upload_route header q file now fs = (r, fs') -> response_ok r = true ->
  exists f fs1,
    file = Some f
    /\ fileFilter f = true
    /\ mkdir_p fs (destDir cwd q) = Return fs1
    /\ r = Response 200
             (OkPath ("/uploads/" +:+ query_category q +:+ "/" +:+ filename f now))
    /\ fs' = <[path_join (destDir cwd q) (filename f now) := File (content_of f)]> fs1.
Proof.
  unfold post_upload, requireDevToken, upload_single.
  destruct (token_rejected TOKEN header);
    [intros [= <- <-] Hs; cbv in Hs; discriminate|].
  destruct file as [f|]; [|intros [= <- <-] Hs; cbv in Hs; discriminate].
  destruct (fileFilter f) eqn:Hf; cbn [negb];
    [|intros [= <- <-] Hs; cbv in Hs; discriminate].
  destruct (mkdir_p fs (destDir cwd q)) as [fs1|e] eqn:Hm;
    [|intros [= <- <-] Hs; cbv in Hs; discriminate].
  destruct (fileSize_limit <? size f)%N;
    [intros [= <- <-] Hs; cbv in Hs; discriminate|].
  destruct (writeFile fs1 _ _) as [fs2|e] eqn:Hw;
    [|intros [= <- <-] Hs; cbv in Hs; discriminate].
  apply writeFile_Return in Hw. intros [= <- <-] _.
  exists f, fs1. repeat split; auto.
Qed.

Lemma destDir_recognised (q : option string) :
  existsb (String.eqb (query_category q)) allowedCategories = true ->
  destDir cwd q = (UPLOAD_DIR cwd ++ [query_category q])%list.
Proof.
  intros H. unfold destDir. rewrite (recognised_category_kept q H).
  apply path_join_segment, allowed_category_proper, H.
Qed.

(** Where a successful upload to a recognised category leaves the file. *)
Lemma upload_stored (fs fs' : fsys text)
    (header q : option string) (file : option (@upload_file text)) (now : N)
    (r : response) :
  existsb (String.eqb (query_category q)) allowedCategories = true ->
  upload_route header q file now fs = (r, fs') ->
  response_ok r = true ->
  exists f,
    file = Some f
    /\ payload r
       = OkPath ("/uploads/" +:+ query_category q +:+ "/" +:+ filename f now)
    /\ path_join (PUBLIC_DIR cwd)
         ("/uploads/" +:+ query_category q +:+ "/" +:+ filename f now)
       = (UPLOAD_DIR cwd ++ [query_category q; filename f now])%list
    /\ fs' !! (UPLOAD_DIR cwd ++ [query_category q; filename f now])%list
       = Some (File (content_of f)).
Proof.
  intros Hcat Hup Hok.
  destruct (post_upload_success _ _ _ _ _ _ _ Hup Hok)
    as (f & fs1 & -> & _ & _ & -> & ->).
  exists f. split; [reflexivity|]. split; [reflexivity|].
  split.
  - apply public_path_resolves;
      [apply allowed_category_proper, Hcat | apply filename_proper].
  - rewrite (destDir_recognised q Hcat).
    rewrite (path_join_segment _ _ (filename_proper f now)), <- app_assoc.
    apply lookup_insert_eq.
Qed.

(** For a recognised category (a missing one counts as [misc]), the
    public path in a successful answer resolves, below the public
    directory, to a file in that category's directory that holds the
    uploaded content. *)
Theorem upload_public_path_resolves (fs fs' : fsys text)
    (header q : option string) (file : option (@upload_file text)) (now : N)
    (r : response) :
  existsb (String.eqb (query_category q)) allowedCategories = true ->
  upload_route header q file now fs = (r, fs') ->
  response_ok r = true ->
  exists f publicPath,
    file = Some f
    /\ payload r = OkPath publicPath
    /\ path_join (PUBLIC_DIR cwd) publicPath
       = (UPLOAD_DIR cwd ++ [query_category q; filename f now])%list
    /\ fs' !! path_join (PUBLIC_DIR cwd) publicPath = Some (File (content_of f)).
Proof.
  intros Hcat Hup Hok.
  destruct (upload_stored fs fs' header q file now r Hcat Hup Hok)
    as (f & -> & Hp & Hres & Hfile).
  exists f, ("/uploads/" +:+ query_category q +:+ "/" +:+ filename f now).
  split; [reflexivity|]. split; [exact Hp|]. split; [exact Hres|].
  now rewrite Hres.
Qed.

(** The public path of a successful upload to a recognised category is
    accepted by the delete endpoint, which removes the uploaded file and
    nothing else. *)
Theorem upload_then_delete (fs fs' : fsys text)
    (header q : option string) (file : option (@upload_file text)) (now : N)
    (r : response) (publicPath : string) :
  existsb (String.eqb (query_category q)) allowedCategories = true ->
  upload_route header q file now fs = (r, fs') ->
  response_ok r = true ->
  payload r = OkPath publicPath ->
  exists f,
    file = Some f
    /\ delete_upload cwd fs' (Some (JStr publicPath))
       = (Response 200 Ok_,
          delete (UPLOAD_DIR cwd ++ [query_category q; filename f now])%list fs').
Proof.
  intros Hcat Hup Hok Hpath.
  destruct (upload_stored fs fs' header q file now r Hcat Hup Hok)
    as (f & -> & Hp & Hres & Hfile).
  rewrite Hpath in Hp. injection Hp as ->.
  exists f. split; [reflexivity|].
  rewrite <- Hres.
  apply (delete_existing_file cwd fs' _ (content_of f)); [reflexivity|].
  now rewrite Hres.
Qed.
End UploadFacts.

Section UploadSafety.
Context {text : Type}.
Variable cwd : path.
Variable TOKEN : option string.

(** An upload that is not answered with success creates, changes and
    removes no file (the category directory may have been created). *)
Theorem refused_upload_keeps_files (fs fs' : fsys text)
    (header q : option string) (file : option (@upload_file text)) (now : N)
    (r : response) :
  post_upload cwd TOKEN header q file now fs = (r, fs') ->
  response_ok r = false ->
  forall p d, fs' !! p = Some (File d) <-> fs !! p = Some (File d).
Proof.
  unfold post_upload, requireDevToken, upload_single.
  destruct (token_rejected TOKEN header); [intros [= <- <-] _; reflexivity|].
  destruct file as [f|]; [|intros [= <- <-] _; reflexivity].
  destruct (fileFilter f); cbn [negb]; [|intros [= <- <-] _; reflexivity].
  destruct (mkdir_p fs (destDir cwd q)) as [fs1|e] eqn:Hm;
    [|intros [= <- <-] _; reflexivity].
  pose proof (mkdir_from_files _ _ _ _ Hm) as Hfiles.
  destruct (fileSize_limit <? size f)%N; [intros [= <- <-] _; exact Hfiles|].
  destruct (writeFile fs1 _ _) as [fs2|e]; [|intros [= <- <-] _; exact Hfiles].
  intros [= <- <-] Hs. cbv in Hs. discriminate Hs.
Qed.

(** The first version of the endpoint has no file filter: a file within
    the size limit is stored whatever its name and type, and the public
    path in the answer resolves to a file holding its content. *)
Theorem plain_upload_stores_any_type (fs : fsys text) (header : option string)
    (f : @upload_file text) (tmp : string) (now : N) :
  token_rejected TOKEN header = false ->
  (fileSize_limit <? size f)%N = false ->
  is_dir fs (UPLOAD_DIR cwd) = true ->
  writable fs (path_join (UPLOAD_DIR cwd) tmp) = true ->
  is_dir fs (UPLOAD_DIR cwd ++ [newFilename f now])%list = false ->
  exists fs',
    post_upload_plain cwd TOKEN header (Some f) tmp now fs
    = (Response 200 (OkPath ("/uploads/" +:+ newFilename f now)), fs')
    /\ fs' !! path_join (PUBLIC_DIR cwd) ("/uploads/" +:+ newFilename f now)
       = Some (File (content_of f)).
Proof.
  intros Htok Hsize Hdir Htmp Hnew.
  set (tmpPath := path_join (UPLOAD_DIR cwd) tmp) in *.
  set (name := newFilename f now) in *.
  assert (Hname : proper_segment name) by apply newFilename_proper.
  assert (Hne : tmpPath <> UPLOAD_DIR cwd).
  { intros E. unfold writable in Htmp. rewrite E, Hdir in Htmp.
    now rewrite andb_false_r in Htmp. }
  assert (Hup : UPLOAD_DIR cwd <> []).
  { unfold UPLOAD_DIR. now destruct cwd. }
  exists (<[(UPLOAD_DIR cwd ++ [name])%list := File (content_of f)]>
            (delete tmpPath (<[tmpPath := File (content_of f)]> fs))).
  unfold post_upload_plain, requireDevToken, upload_single_plain.
  rewrite Htok, Hsize. fold tmpPath.
  rewrite (writeFile_writable _ _ _ Htmp).
  fold name. rewrite (path_join_segment _ _ Hname).
  unfold rename. rewrite lookup_insert_eq, parent_snoc.
  rewrite !is_dir_insert_File by (exact Hup || now destruct (UPLOAD_DIR cwd)).
  rewrite (bool_decide_eq_false_2 _ (not_eq_sym Hne)), Hdir.
  assert (Hnot : (if bool_decide ((UPLOAD_DIR cwd ++ [name])%list = tmpPath)
                  then false else is_dir fs (UPLOAD_DIR cwd ++ [name])%list) = false)
    by (case_bool_decide; [reflexivity | exact Hnew]).
  rewrite Hnot. cbn [andb negb]. split; [reflexivity|].
  rewrite (plain_public_path_resolves cwd name Hname).
  apply lookup_insert_eq.
Qed.
End UploadSafety.

(** Two uploads of one file get the same name only at the same
    millisecond. *)
Theorem filename_distinct_per_millisecond {text : Type}
    (f : upload_file (text := text)) (t1 t2 : N) :
  filename f t1 = filename f t2 <-> t1 = t2.
Proof.
  split; [|now intros ->].
  unfold filename. intros H.
  apply (inj (String.app _)) in H. apply (inj (String.app _)) in H.
  apply string_append_inv_tail in H. now apply (inj pretty) in H.
Qed.

(** A file the image field accepts passes the server's MIME test and its
    size limit, so the server refuses it only for its extension. *)
Theorem client_validation_covers_server_checks {text : Type}
    (f : upload_file (text := text)) :
  validateImageFile f = true ->
  allowedTypes_test (mimetype f) = true
  /\ (fileSize_limit <? size f)%N = false
  /\ fileFilter f = allowedTypes_test (toLowerCase (extname (originalname f))).
Proof.
  unfold validateImageFile, ALLOWED_FILE_TYPES.
  destruct (MAX_FILE_SIZE <? size f)%N eqn:Hsize; [discriminate|].
  destruct (existsb _ _) eqn:Hmime; [|discriminate]. intros _.
  assert (Htest : allowedTypes_test (mimetype f) = true).
  { cbn [existsb] in Hmime.
    repeat (apply orb_prop in Hmime as [Hmime|Hmime];
            [apply String.eqb_eq in Hmime; rewrite Hmime; reflexivity|]).
    discriminate Hmime. }
  split; [exact Htest|]. split.
  - apply N.ltb_ge. apply N.ltb_ge in Hsize.
    unfold fileSize_limit, MAX_FILE_SIZE in *. lia.
  - unfold fileFilter. now rewrite Htest.
Qed.

(** ** The delete endpoint *)

Lemma delete_upload_outcome {text : Type} (cwd : path) (fs fs' : fsys text)
    (filePath : option json) (r : response) :
  delete_upload cwd fs filePath = (r, fs') ->
  (response_ok r = false /\ fs' = fs)
  \/ exists s d,
       filePath = Some (JStr s)
       /\ startsWith s "/uploads/" = true
       /\ fs !! path_join (PUBLIC_DIR cwd) s = Some (File d)
       /\ r = Response 200 Ok_
       /\ fs' = delete (path_join (PUBLIC_DIR cwd) s) fs.
Proof.
  unfold delete_upload, delete_upload_try, catch500.
  destruct (negb (truthy filePath)); [intros [= <- <-]; left; split; reflexivity|].
  destruct filePath as [[| | |s| |]|];
    try (intros [= <- <-]; left; split; reflexivity).
  destruct (startsWith s "/uploads/") eqn:Hs; cbn [negb];
    [|intros [= <- <-]; left; split; reflexivity].
  destruct (access fs _); cbn [negb];
    [|intros [= <- <-]; left; split; reflexivity].
  unfold unlink.
  destruct (fs !! path_join (PUBLIC_DIR cwd) s) as [[d|]|] eqn:Hf; cbn [bind];
    try (intros [= <- <-]; left; split; reflexivity).
  intros [= <- <-]. right. exists s, d. repeat split; assumption.
Qed.

(** A delete request changes the file system at most by removing one
    file: whatever differs afterwards was a file, is gone, and the answer
    is 200.  No directory is removed and nothing is created. *)
Theorem delete_removes_one_file_at_most {text : Type} (cwd : path)
    (fs fs' : fsys text) (filePath : option json) (r : response) (p : path) :
  delete_upload cwd fs filePath = (r, fs') ->
  fs' !! p <> fs !! p ->
  r = Response 200 Ok_
  /\ fs' !! p = None
  /\ (exists d, fs !! p = Some (File d))
  /\ forall p', p' <> p -> fs' !! p' = fs !! p'.
Proof.
  intros H Hdiff.
  apply delete_upload_outcome in H as [[_ ->]|(s & d & _ & _ & Hf & -> & ->)];
    [contradiction|].
  destruct (decide (p = path_join (PUBLIC_DIR cwd) s)) as [->|Hne].
  - split; [reflexivity|]. split; [apply lookup_delete_eq|].
    split; [eauto|]. intros p' Hp'. now apply lookup_delete_ne.
  - now rewrite lookup_delete_ne in Hdiff by congruence.
Qed.

(** After a successful delete, the same request is answered with 404 and
    changes nothing. *)
Theorem second_delete_not_found {text : Type} (cwd : path)
    (fs fs' : fsys text) (filePath : option json) (r : response) :
  fs !! [] = None ->
  delete_upload cwd fs filePath = (r, fs') ->
  response_ok r = true ->
  delete_upload cwd fs' filePath = (Response 404 (Error "file not found"), fs').
Proof.
  intros Hroot H Hok.
  apply delete_upload_outcome in H as [[Hno _]|(s & d & -> & Hs & Hf & -> & ->)];
    [congruence|].
  apply delete_missing_target; [exact Hs|].
  unfold access. rewrite lookup_delete_eq.
  destruct (path_join (PUBLIC_DIR cwd) s) eqn:E; [|reflexivity].
  congruence.
Qed.

(** ** More on the save endpoints *)

Section SaveSafety.
Context {text : Type}.
Variable JSON_stringify : json -> text.
Variable JSON_stringify_pretty : json -> text.
Variable JSON_parse : text -> option json.
Variable localeCompare : string -> string -> Z.
Variable coerced_sub : json -> json -> option Z.
Variable ToString : json -> string.
Variable cwd : path.
Variable TOKEN : option string.

#[local] Abbreviation sorting_save :=
  (save_json JSON_stringify JSON_stringify_pretty JSON_parse
     localeCompare coerced_sub ToString cwd).
#[local] Abbreviation sorting_route :=
  (post_save_json JSON_stringify JSON_stringify_pretty JSON_parse
     localeCompare coerced_sub ToString cwd TOKEN).
#[local] Abbreviation plain_save :=
  (save_json_plain JSON_stringify JSON_stringify_pretty JSON_parse).
#[local] Abbreviation reload := (loadJsonData JSON_parse cwd).
#[local] Abbreviation ordering := (sort_records localeCompare coerced_sub ToString).

Lemma save_json_outcome (fs fs' : fsys text) (file content : option json)
    (r : response) :
  sorting_save fs file content = (r, fs') ->
  fs' = fs
  \/ exists name d,
       check_file file = Return (Some name)
       /\ fs' = <[path_join (DATA_DIR cwd) name := File d]> fs.
Proof.
  unfold save_json, catch500, save_json_try.
  destruct (check_file file) as [[name|]|e] eqn:Hc; cbn [bind];
    try (intros [= <- <-]; now left).
  destruct (validate _ _ content) as [c|e]; cbn [bind];
    try (intros [= <- <-]; now left).
  assert (Hw : forall d,
    match write_data JSON_stringify_pretty cwd fs name d with
    | Return out => out
    | Throw e => (Response 500 (ErrorOf e), fs)
    end = (r, fs') ->
    fs' = fs
    \/ exists name0 d0,
         Return (Some name) = Return (Some name0)
         /\ fs' = <[path_join (DATA_DIR cwd) name0 := File d0]> fs).
  { intros d. unfold write_data.
    destruct (writeFile _ _ _) as [fs1|e] eqn:Hwf; cbn [bind].
    - apply writeFile_Return in Hwf. intros [= <- <-]. right. eauto.
    - intros [= <- <-]. now left. }
  destruct c as [| b | n | s | items | props]; try apply Hw.
  destruct (ordering items) as [sorted|e]; cbn [bind];
    try (intros [= <- <-]; now left).
  destruct (_ && _); [intros [= <- <-]; now left | apply Hw].
Qed.

(** Whatever the request, the save endpoint changes nothing but the one
    file it is asked for, and that file sits directly in the data
    directory under a name ending in [.json]. *)
Theorem save_confined_to_data_directory (fs fs' : fsys text)
    (header : option string) (file content : option json) (r : response)
    (p : path) :
  sorting_route header file content fs = (r, fs') ->
  fs' !! p <> fs !! p ->
  exists name,
    file = Some (JStr name)
    /\ endsWith name ".json" = true
    /\ p = (DATA_DIR cwd ++ [name])%list.
Proof.
  unfold post_save_json, requireDevToken.
  destruct (token_rejected TOKEN header); [intros [= <- <-]; contradiction|].
  intros H Hdiff.
  apply save_json_outcome in H as [->|(name & d & Hname & ->)]; [contradiction|].
  pose proof (check_file_passed _ _ Hname) as (-> & Hjson & _).
  rewrite (path_join_valid_name _ _ Hname) in Hdiff.
  exists name. split; [reflexivity|]. split; [exact Hjson|].
  destruct (decide (p = (DATA_DIR cwd ++ [name])%list)) as [->|Hne]; [reflexivity|].
  now rewrite lookup_insert_ne in Hdiff by congruence.
Qed.

Lemma save_json_plain_success (dir : path) (fs fs' : fsys text)
    (file content : option json) (r : response) :
  plain_save dir fs file content = (r, fs') -> response_ok r = true ->
  exists name c,
    check_file file = Return (Some name)
    /\ content = Some c
    /\ fs' = <[path_join dir name := File (JSON_stringify_pretty c)]> fs.
Proof.
  unfold save_json_plain, catch500, save_json_plain_try.
  destruct (check_file file) as [[name|]|e]; cbn [bind];
    try (intros [= <- <-] Hs; cbv in Hs; discriminate).
  destruct (validate _ _ content) as [c|e] eqn:Hv; cbn [bind];
    try (intros [= <- <-] Hs; cbv in Hs; discriminate).
  apply validate_Return in Hv.
  destruct (writeFile _ _ _) as [fs1|e] eqn:Hw; cbn [bind];
    try (intros [= <- <-] Hs; cbv in Hs; discriminate).
  apply writeFile_Return in Hw. intros [= <- <-] _. eauto.
Qed.

(** The first version of the save endpoint of [registerRoutes] does not
    sort: after a successful save, loading the collection returns the
    content exactly as it was sent, array or not. *)
Theorem plain_save_then_load_roundtrip (fs fs' : fsys text) (file : string)
    (content : json) (r : response) :
  parses_back JSON_stringify_pretty JSON_parse ->
  plain_save (DATA_DIR cwd) fs (Some (JStr file)) (Some content) = (r, fs') ->
  response_ok r = true ->
  reload fs' file = Return content.
Proof.
  intros Hback H Hok.
  apply save_json_plain_success in H as (name & c & Hname & [= <-] & ->);
    [|exact Hok].
  apply check_file_passed in Hname as ([= <-] & _).
  unfold loadJsonData. rewrite lookup_insert_eq. now rewrite Hback.
Qed.

(** The stand-alone dev server writes below [client/src/data], which is
    not where [loadJsonData] reads: a save through it that is answered
    with success has written the content to the file of that name in
    [client/src/data], and whether it succeeds or not, what the loader
    returns for a valid name is what it returned before. *)
Theorem standalone_save_not_seen_by_loader (fs : fsys text)
    (file content : option json) (name : string) :
  check_file (Some (JStr name)) = Return (Some name) ->
  reload (snd (plain_save (SRC_DATA_DIR cwd) fs file content)) name
  = reload fs name
  /\ (response_ok (fst (plain_save (SRC_DATA_DIR cwd) fs file content)) = true ->
      exists saved c,
        file = Some (JStr saved)
        /\ content = Some c
        /\ snd (plain_save (SRC_DATA_DIR cwd) fs file content)
             !! (SRC_DATA_DIR cwd ++ [saved])%list
           = Some (File (JSON_stringify_pretty c))).
Proof.
  intros Hname.
  destruct (plain_save (SRC_DATA_DIR cwd) fs file content) as [r fs'] eqn:H.
  cbn [fst snd]. split.
  - unfold save_json_plain, catch500, save_json_plain_try in H.
    destruct (check_file file) as [[saved|]|e] eqn:Hc; cbn [bind] in H;
      try (injection H as <- <-; reflexivity).
    destruct (validate _ _ content) as [c|e]; cbn [bind] in H;
      try (injection H as <- <-; reflexivity).
    destruct (writeFile _ _ _) as [fs1|e] eqn:Hw; cbn [bind] in H;
      try (injection H as <- <-; reflexivity).
    apply writeFile_Return in Hw. injection H as <- <-. subst fs1.
    pose proof (check_file_passed _ _ Hc) as (-> & _).
    unfold loadJsonData.
    rewrite (path_join_valid_name _ _ Hc), (path_join_valid_name _ _ Hname).
    rewrite lookup_insert_ne; [reflexivity|].
    unfold SRC_DATA_DIR, DATA_DIR. rewrite <- !app_assoc. intros E.
    apply app_inv_head in E. discriminate E.
  - intros Hok.
    destruct (save_json_plain_success _ _ _ _ _ _ H Hok)
      as (saved & c & Hc & -> & ->).
    pose proof (check_file_passed _ _ Hc) as (-> & _).
    exists saved, c. split; [reflexivity|]. split; [reflexivity|].
    rewrite (path_join_valid_name _ _ Hc). apply lookup_insert_eq.
Qed.
End SaveSafety.

(** ** Sessions and login *)

Lemma loginSchema_parse_Some (body : option json) (username password : string) :
  loginSchema_parse body = Some (username, password) <->
  exists props,
    body = Some (JObj props)
    /\ assoc "username" props = Some (JStr username)
    /\ assoc "password" props = Some (JStr password).
Proof.
  split.
  - destruct body as [[| | | | |props]|]; cbn; try discriminate.
    destruct (assoc "username" props) as [[| | |u| |]|] eqn:Hu; try discriminate;
      try (destruct (assoc "password" props) as [[]|]; discriminate).
    destruct (assoc "password" props) as [[| | |p| |]|] eqn:Hp; try discriminate.
    intros [= <- <-]. eauto.
  - intros (props & -> & Hu & Hp). cbn. now rewrite Hu, Hp.
Qed.

(** A login is answered with 200 exactly for the user [admin] with the
    password [password]; any other attempt, malformed or with wrong
    credentials, leaves the session as it was, so a session that is logged
    in stays logged in. *)
Theorem login_only_with_the_credentials (s : session) (body : option json) :
  (code (fst (login s body)) = 200 <->
   loginSchema_parse body = Some ("admin", "password"))
  /\ (loginSchema_parse body = Some ("admin", "password") ->
      snd (login s body) = Session true true (Some admin_user))
  /\ (loginSchema_parse body <> Some ("admin", "password") ->
      snd (login s body) = s).
Proof.
  unfold login.
  destruct (loginSchema_parse body) as [[u p]|]; cbn.
  - destruct (String.eqb_spec u "admin") as [->|Hu];
      destruct (String.eqb_spec p "password") as [->|Hp]; cbn;
      repeat split; try congruence; try discriminate.
  - repeat split; try congruence; discriminate.
Qed.

Lemma handle_coherent (s : session) (q : request) :
  coherent s -> coherent (snd (handle s q)).
Proof.
  intros Hs. destruct q as [body| | |]; cbn.
  - unfold login. destruct (loginSchema_parse body) as [[u p]|]; [|exact Hs].
    destruct (_ && _); [now right | exact Hs].
  - now left.
  - unfold auth_user, isAuthenticated. now destruct (authenticated s).
  - unfold auth_admin, isAuthenticated. now destruct (authenticated s).
Qed.

Lemma session_after_coherent (requests : list request) (s : session) :
  coherent s -> coherent (session_after s requests).
Proof.
  revert s. induction requests as [|q rest IH]; intros s Hs; [exact Hs|].
  cbn. apply IH, handle_coherent, Hs.
Qed.

(** Whatever requests a fresh session has seen, it is authenticated
    exactly when it is an admin session with the admin user: the two
    middlewares let the same sessions through, [/api/auth/user] answers
    the admin user, and [/api/auth/admin] never answers [isAdmin: false]
    with status 200. *)
Theorem authenticated_sessions_are_admin (requests : list request)
    (next : session -> reply * session) :
  let s := session_after no_session requests in
  authenticated s = admin s
  /\ (authenticated s = true -> user s = Some admin_user)
  /\ isAdmin s next
     = (if authenticated s then next s else (message 403 "Admin access required", s))
  /\ (code (fst (auth_admin s)) = 200 ->
      exists rest, answer (fst (auth_admin s))
                   = Some (JObj (("isAdmin", JBool true) :: rest))).
Proof.
  intros s.
  destruct (session_after_coherent requests no_session (or_introl eq_refl))
    as [E|E]; fold s in E; rewrite E; cbn.
  - repeat split; try reflexivity; discriminate.
  - repeat split; try reflexivity. intros _. eauto.
Qed.

(** After a logout, the protected routes answer 401 until a login with
    the right credentials, whatever other requests come in between. *)
Theorem logged_out_until_next_login (s : session) (requests : list request) :
  forallb (fun q => negb (successful_login q)) requests = true ->
  let s' := session_after (snd (logout s)) requests in
  fst (auth_user s') = message 401 "Authentication required"
  /\ fst (auth_admin s') = message 401 "Authentication required".
Proof.
  intros Hno s'.
  assert (Hs' : s' = no_session).
  { subst s'. cbn [logout snd]. induction requests as [|q rest IH]; [reflexivity|].
    cbn [forallb] in Hno. apply andb_prop in Hno as [Hq Hrest].
    cbn [session_after fold_left].
    replace (snd (handle no_session q)) with no_session; [exact (IH Hrest)|].
    destruct q as [body| | |]; cbn in Hq |- *; try reflexivity.
    unfold login. destruct (loginSchema_parse body) as [[u p]|]; [|reflexivity].
    now destruct (_ && _). }
  rewrite Hs'. split; reflexivity.
Qed.

(** ** Saving what was loaded *)

Section Resave.
Variable localeCompare : string -> string -> Z.
Variable coerced_sub : json -> json -> option Z.
Variable ToString : json -> string.

#[local] Abbreviation arrange := (sort_records localeCompare coerced_sub ToString).

Lemma compare_not_positive (has : bool) (a b : json) :
  record_with has a = true -> record_with has b = true ->
  record_le localeCompare a b ->
  exists c, compareRecords localeCompare coerced_sub ToString a b = Return c
            /\ positive_result c = false.
Proof.
  intros Ha Hb Hle. rewrite (compare_uniform _ _ _ has a b Ha Hb).
  eexists. split; [reflexivity|]. unfold positive_result.
  destruct Hle as [Hlt|[Heq Hlc]].
  - destruct (Z.eqb_spec (displayOrder_of a) (displayOrder_of b)); [lia|].
    apply Z.ltb_ge. lia.
  - apply Z.eqb_eq in Heq. rewrite Heq. apply Z.ltb_ge. lia.
Qed.

(** The policy leaves an array alone that is in its order already. *)
Lemma sort_records_sorted_fixed (has : bool) (l : list json) :
  Forall (fun r => record_with has r = true) l ->
  StronglySorted (record_le localeCompare) l ->
  arrange l = Return l.
Proof.
  intros Hl Hs. induction Hs as [|x l Hs IH Hx]; [reflexivity|].
  apply Forall_cons in Hl as [Hrx Hl]. cbn [sort_records].
  rewrite (IH Hl). cbn [bind].
  destruct l as [|y l']; [reflexivity|].
  apply Forall_cons in Hx as [Hxy _]. apply Forall_cons in Hl as [Hry _].
  destruct (compare_not_positive has x y Hrx Hry Hxy) as (c & Hc & Hp).
  exact (insert_record_head _ _ _ x y l' c Hc Hp).
Qed.

Lemma record_le_untitled (a b : json) :
  record_with false a = true -> record_with false b = true ->
  record_le localeCompare a b -> title_le localeCompare a b.
Proof.
  intros Ha Hb Hle.
  assert (H0 : forall r, record_with false r = true -> displayOrder_of r = 0%Z).
  { intros r Hr. unfold record_with in Hr. apply andb_prop in Hr as [_ Hr].
    destruct r as [| | | | |props]; try discriminate. cbn.
    destruct (assoc "displayOrder" props) as [[]|]; try discriminate; reflexivity. }
  unfold title_le. destruct Hle as [Hlt|[_ Hlc]]; [|exact Hlc].
  rewrite (H0 a Ha), (H0 b Hb) in Hlt. lia.
Qed.

Lemma sorted_untitled (l : list json) :
  Forall (fun r => record_with false r = true) l ->
  StronglySorted (record_le localeCompare) l ->
  StronglySorted (title_le localeCompare) l.
Proof.
  intros Hl Hs. induction Hs as [|x l Hs IH Hx]; [constructor|].
  apply Forall_cons in Hl as [Hrx Hl]. constructor; [now apply IH|].
  rewrite Forall_forall in Hx, Hl |- *. intros y Hy.
  apply record_le_untitled; auto.
Qed.
End Resave.

Section SaveAgain.
Context {text : Type}.
Variable JSON_stringify : json -> text.
Variable JSON_stringify_pretty : json -> text.
Variable JSON_parse : text -> option json.
Variable localeCompare : string -> string -> Z.
Variable coerced_sub : json -> json -> option Z.
Variable ToString : json -> string.
Variable cwd : path.
Variable TOKEN : option string.

#[local] Abbreviation handler :=
  (save_json JSON_stringify JSON_stringify_pretty JSON_parse
     localeCompare coerced_sub ToString cwd).
#[local] Abbreviation route :=
  (post_save_json JSON_stringify JSON_stringify_pretty JSON_parse
     localeCompare coerced_sub ToString cwd TOKEN).
#[local] Abbreviation fetch := (loadJsonData JSON_parse cwd).
#[local] Abbreviation arranged := (sort_records localeCompare coerced_sub ToString).

(** The answer of the handler to an array under a valid name, case by
    case. *)
Lemma save_json_array (fs : fsys text) (name : string) (items sorted : list json) :
  check_file (Some (JStr name)) = Return (Some name) ->
  validate JSON_stringify JSON_parse (Some (JArr items)) = Return (JArr items) ->
  arranged items = Return sorted ->
  handler fs (Some (JStr name)) (Some (JArr items)) =
    if String.eqb name "programs.json" && (4 <? length sorted)%nat
    then (Response 400 (Error programs_limit_msg), fs)
    else if writable fs (path_join (DATA_DIR cwd) name)
    then (Response 200 (OkCount (length sorted)),
          <[path_join (DATA_DIR cwd) name := File (JSON_stringify_pretty (JArr sorted))]> fs)
    else (Response 500 (ErrorOf IOError), fs).
Proof.
  intros Hc Hv Hs. unfold save_json, save_json_try.
  rewrite Hc. cbn [bind]. rewrite Hv. cbn [bind]. rewrite Hs. cbn [bind].
  destruct (_ && _); [reflexivity|].
  unfold write_data, writeFile, writable.
  now destruct (_ && _).
Qed.

(** An answer other than success leaves every file as it was. *)
Lemma save_route_refusal (fs fs' : fsys text) (header : option string)
    (file content : option json) (r : response) :
  route header file content fs = (r, fs') -> response_ok r = false -> fs' = fs.
Proof.
  unfold post_save_json, requireDevToken.
  destruct (token_rejected TOKEN header); [now intros [= <- <-]|].
  unfold save_json, catch500, save_json_try.
  destruct (check_file file) as [[name|]|e]; cbn [bind];
    try (now intros [= <- <-]).
  destruct (validate _ _ content) as [c|e]; cbn [bind];
    try (now intros [= <- <-]).
  assert (Hw : forall d,
    match write_data JSON_stringify_pretty cwd fs name d with
    | Return out => out
    | Throw e => (Response 500 (ErrorOf e), fs)
    end = (r, fs') -> response_ok r = false -> fs' = fs).
  { intros d. unfold write_data.
    destruct (writeFile _ _ _) as [fs1|e]; cbn [bind].
    - intros [= <- <-] Hs; cbv in Hs; discriminate.
    - now intros [= <- <-]. }
  destruct c as [| b | n | s | items | props]; try apply Hw.
  destruct (arranged items) as [sorted|e]; cbn [bind];
    try (now intros [= <- <-]).
  destruct (_ && _); [now intros [= <- <-]|]. apply Hw.
Qed.

(** Saving the collection that a load returns changes nothing: the
    loaded array is in the order of the policy, so the second save
    writes the same file and gives the same answer. *)
Theorem resave_of_loaded_collection_changes_nothing
    (has : bool) (fs fs' : fsys text) (header : option string) (file : string)
    (items : list json) (r : response) :
  collation_total localeCompare ->
  collation_transitive localeCompare ->
  parses_back JSON_stringify JSON_parse ->
  parses_back JSON_stringify_pretty JSON_parse ->
  Forall (fun m => record_with has m = true) items ->
  route header (Some (JStr file)) (Some (JArr items)) fs = (r, fs') ->
  response_ok r = true ->
  exists loaded,
    fetch fs' file = Return (JArr loaded)
    /\ route header (Some (JStr file)) (Some (JArr loaded)) fs' = (r, fs').
Proof.
  intros Htot Htrans Hval Hback Hrec Hsave Hok.
  assert (Hgate : token_rejected TOKEN header = false).
  { unfold post_save_json, requireDevToken in Hsave.
    destruct (token_rejected TOKEN header); [|reflexivity].
    injection Hsave as <- <-. cbv in Hok. discriminate. }
  apply save_route_success in Hsave; [|exact Hok].
  pose proof (save_json_success _ _ _ _ _ _ _ _ _ _ _ _ Hsave Hok)
    as (name & c & d & Hname & [= <-] & (sorted & Hsort & ->) & -> & ->).
  pose proof (check_file_passed _ _ Hname) as ([= <-] & _).
  rewrite (save_json_array fs file items sorted Hname (validate_parses _ _ _ Hval) Hsort)
    in Hsave.
  destruct (_ && _) eqn:Hcap; [discriminate|].
  destruct (writable fs _) eqn:Hw; [|discriminate]. clear Hsave.
  exists sorted. split.
  { unfold loadJsonData. rewrite lookup_insert_eq. now rewrite Hback. }
  assert (Hsorted : StronglySorted (record_le localeCompare) sorted)
    by exact (sort_records_sorted _ _ _ Htot Htrans has items sorted Hrec Hsort).
  assert (Hrec' : Forall (fun m => record_with has m = true) sorted).
  { now rewrite <- (sort_records_perm _ _ _ _ _ Hsort). }
  pose proof (sort_records_sorted_fixed localeCompare coerced_sub ToString
                has sorted Hrec' Hsorted) as Hfix.
  unfold post_save_json, requireDevToken. rewrite Hgate.
  rewrite (save_json_array _ file sorted sorted Hname (validate_parses _ _ _ Hval) Hfix).
  rewrite Hcap.
  rewrite (path_join_valid_name _ _ Hname) in Hw |- *.
  assert (Hw' : writable (<[(DATA_DIR cwd ++ [file])%list
                   := File (JSON_stringify_pretty (JArr sorted))]> fs)
                  (DATA_DIR cwd ++ [file])%list = true).
  { unfold writable in Hw |- *. rewrite parent_snoc in Hw |- *.
    apply andb_prop in Hw as [Hdir Hnot].
    assert (Hne : DATA_DIR cwd <> []).
    { intros E. apply (f_equal length) in E. unfold DATA_DIR in E.
      rewrite length_app in E. cbn in E. lia. }
    rewrite !is_dir_insert_File by (try exact Hne; now destruct (DATA_DIR cwd)).
    rewrite (bool_decide_eq_false_2 (DATA_DIR cwd = _)).
    2:{ intros E. apply (f_equal length) in E. rewrite length_app in E. cbn in E. lia. }
    rewrite (bool_decide_eq_true_2 (_ ++ _ = _)%list) by reflexivity.
    now rewrite Hdir. }
  rewrite Hw'. now rewrite insert_insert_eq.
Qed.
End SaveAgain.

(** ** The mutations of the admin page *)

Lemma filter_other_ids_Return (id : string) (items kept : list json) :
  filter_other_ids id items = Return kept ->
  kept = List.filter (fun m => negb (has_id id m)) items.
Proof.
  revert kept. induction items as [|m rest IH]; intros kept H; cbn in H.
  - now injection H as <-.
  - apply bind_Return in H as (mid & Hmid & H).
    apply bind_Return in H as (kept' & Hkept & H). injection H as <-.
    cbn [List.filter]. unfold has_id at 1. rewrite Hmid.
    rewrite (IH _ Hkept). reflexivity.
Qed.

Lemma has_id_object (id : string) (m : json) :
  has_id id m = true ->
  exists props, m = JObj props /\ assoc "id" props = Some (JStr id).
Proof.
  unfold has_id. destruct m as [| | | | |props]; cbn; try discriminate.
  destruct (assoc "id" props) as [[| | |s| |]|] eqn:Hid; cbn; try discriminate.
  intros E. apply String.eqb_eq in E. subst s. eauto.
Qed.

(** [findIndex] answers the first record of that id. *)
Lemma findIndex_id_Return (id : string) (items : list json) (found : option nat) :
  findIndex_id id items = Return found ->
  match found with
  | Some i =>
      exists props,
        items !! i = Some (JObj props)
        /\ assoc "id" props = Some (JStr id)
        /\ Forall (fun m => has_id id m = false) (take i items)
  | None => Forall (fun m => has_id id m = false) items
  end.
Proof.
  revert found. induction items as [|c rest IH]; intros found H; cbn in H.
  - injection H as <-. constructor.
  - apply bind_Return in H as (cid & Hcid & H).
    destruct (strict_equal cid (Some (JStr id))) eqn:E.
    + injection H as <-.
      destruct (has_id_object id c) as (props & -> & Hid).
      { unfold has_id. now rewrite Hcid. }
      exists props. repeat split; [exact Hid | constructor].
    + apply bind_Return in H as (found' & Hf & H). injection H as <-.
      assert (Hc : has_id id c = false) by (unfold has_id; now rewrite Hcid).
      specialize (IH _ Hf). destruct found' as [i|]; cbn.
      * destruct IH as (props & Hi & Hid & Hbefore).
        exists props. repeat split; auto.
      * constructor; auto.
Qed.

(** The fields of [{ ...base, ...data }]: those of the form, and the
    others of the base. *)
Lemma assoc_app (k : string) (a b : obj) :
  assoc k (a ++ b)%list = match assoc k a with Some v => Some v | None => assoc k b end.
Proof.
  induction a as [|[k0 v0] a IH]; cbn; [reflexivity|].
  now destruct (String.eqb k k0).
Qed.

Lemma spread_over_assoc (k : string) (data base : obj) :
  assoc k (spread_over base data)
  = match assoc k (rev data) with
    | Some v => Some v
    | None => assoc k base
    end.
Proof.
  unfold spread_over. revert base.
  induction data as [|[k0 v0] data IH]; intros base; cbn [fold_left rev].
  - reflexivity.
  - rewrite IH, assoc_app. cbn [fst snd assoc].
    destruct (assoc k (rev data)); [reflexivity|].
    destruct (String.eqb_spec k k0) as [->|E].
    + apply assoc_assign.
    + now apply assoc_assign_other.
Qed.

Section ClientFacts.
Context {text : Type}.
Variable JSON_stringify : json -> text.
Variable JSON_stringify_pretty : json -> text.
Variable JSON_parse : text -> option json.
Variable localeCompare : string -> string -> Z.
Variable coerced_sub : json -> json -> option Z.
Variable ToString : json -> string.
Variable cwd : path.
Variable TOKEN : option string.
Variable DEV : bool.
Variable DEV_TOKEN : option string.

#[local] Abbreviation fetched := (loadJsonData JSON_parse cwd).
#[local] Abbreviation collection := (load_collection JSON_parse cwd).
#[local] Abbreviation in_order := (sort_records localeCompare coerced_sub ToString).
#[local] Abbreviation saved :=
  (save_collection JSON_stringify JSON_stringify_pretty JSON_parse
     localeCompare coerced_sub ToString cwd TOKEN DEV DEV_TOKEN).
#[local] Abbreviation delete_record :=
  (deleteMutation JSON_stringify JSON_stringify_pretty JSON_parse
     localeCompare coerced_sub ToString cwd TOKEN DEV DEV_TOKEN).
#[local] Abbreviation save_record :=
  (saveMutation JSON_stringify JSON_stringify_pretty JSON_parse
     localeCompare coerced_sub ToString cwd TOKEN DEV DEV_TOKEN).
#[local] Abbreviation save_program :=
  (programSaveMutation JSON_stringify JSON_stringify_pretty JSON_parse
     localeCompare coerced_sub ToString cwd TOKEN DEV DEV_TOKEN).
#[local] Abbreviation save_news_order :=
  (saveNewsOrder JSON_stringify JSON_stringify_pretty JSON_parse
     localeCompare coerced_sub ToString cwd TOKEN DEV DEV_TOKEN).

Hypothesis stored_text_parses : parses_back JSON_stringify_pretty JSON_parse.

(** A mutation that resolves has stored its collection, in the order of
    the policy; one that rejects has stored nothing. *)
Lemma save_collection_resolved (fs fs' : fsys text) (file : string)
    (items sent : list json) :
  saved fs file items = (Some sent, fs') ->
  sent = items
  /\ exists sorted,
       in_order items = Return sorted
       /\ collection fs' file = Return sorted.
Proof using stored_text_parses.
  unfold save_collection, saveToJson.
  destruct (negb DEV); [discriminate|].
  destruct (post_save_json _ _ _ _ _ _ _ _ _ _ _ _) as [r fs1] eqn:Hpost.
  destruct (response_ok r) eqn:Hok; [|discriminate].
  intros [= <- <-]. split; [reflexivity|].
  apply save_route_success in Hpost; [|exact Hok].
  apply save_json_success in Hpost; [|exact Hok].
  destruct Hpost as (name & c & d & Hname & [= <-] & (sorted & Hsort & ->) & _ & ->).
  apply check_file_passed in Hname as ([= <-] & _).
  exists sorted. split; [exact Hsort|].
  unfold load_collection, loadJsonData. rewrite lookup_insert_eq.
  now rewrite stored_text_parses.
Qed.

Lemma save_collection_rejected (fs fs' : fsys text) (file : string)
    (items : list json) :
  saved fs file items = (None, fs') -> fs' = fs.
Proof.
  unfold save_collection, saveToJson.
  destruct (negb DEV); [now intros [= <-]|].
  destruct (post_save_json _ _ _ _ _ _ _ _ _ _ _ _) as [r fs1] eqn:Hpost.
  destruct (response_ok r) eqn:Hok; [discriminate|].
  intros [= <-]. exact (save_route_refusal _ _ _ _ _ _ _ _ _ _ _ _ _ _ Hpost Hok).
Qed.

(** Deleting a record stores the records of the collection whose [id]
    is another one, all of them and nothing else; the mutation resolves
    with them in the order they had. *)
Theorem delete_removes_the_id (fs fs' : fsys text) (file id : string)
    (kept : list json) :
  delete_record file id fs = (Some kept, fs') ->
  exists old stored,
    collection fs file = Return old
    /\ kept = List.filter (fun m => negb (has_id id m)) old
    /\ collection fs' file = Return stored
    /\ Permutation kept stored
    /\ forall m, In m stored <-> In m old /\ has_id id m = false.
Proof using stored_text_parses.
  unfold deleteMutation. intros H.
  destruct (collection fs file) as [old|e] eqn:Hold; cbn [bind] in H;
    [|discriminate].
  destruct (filter_other_ids id old) as [filtered|e] eqn:Hf; [|discriminate].
  apply filter_other_ids_Return in Hf.
  apply save_collection_resolved in H as (-> & stored & Hsort & Hload).
  apply sort_records_perm in Hsort.
  exists old, stored.
  split; [reflexivity|]. split; [exact Hf|]. split; [exact Hload|].
  split; [exact Hsort|].
  intros m. rewrite <- Hsort, Hf, filter_In, negb_true_iff. reflexivity.
Qed.

(** Saving the dialog of a record being edited changes the first record
    of that [id], and only it: the record takes the fields of the form
    and keeps its other fields.  When no record has that [id] the
    collection is stored as it was loaded, and the mutation resolves all
    the same. *)
Theorem edit_changes_one_record (fs fs' : fsys text) (file id newId : string)
    (data : obj) (sent : list json) :
  save_record file (Some id) data newId fs = (Some sent, fs') ->
  exists old stored,
    collection fs file = Return old
    /\ collection fs' file = Return stored
    /\ Permutation sent stored
    /\ ((Forall (fun m => has_id id m = false) old /\ sent = old)
        \/ exists i props edited,
             old !! i = Some (JObj props)
             /\ assoc "id" props = Some (JStr id)
             /\ Forall (fun m => has_id id m = false) (take i old)
             /\ sent = <[i := JObj edited]> old
             /\ forall k, assoc k edited
                          = match assoc k (rev data) with
                            | Some v => Some v
                            | None => assoc k props
                            end).
Proof using stored_text_parses.
  unfold saveMutation. intros H.
  destruct (collection fs file) as [old|e] eqn:Hold; cbn [bind] in H;
    [|discriminate].
  destruct (apply_form (Some id) data newId old) as [updated|e] eqn:Hform;
    [|discriminate].
  apply save_collection_resolved in H as (-> & stored & Hsort & Hload).
  apply sort_records_perm in Hsort.
  exists old, stored. split; [reflexivity|]. split; [exact Hload|].
  split; [exact Hsort|].
  cbn [apply_form] in Hform.
  apply bind_Return in Hform as (found & Hfound & Hform).
  apply findIndex_id_Return in Hfound.
  destruct found as [i|].
  - destruct Hfound as (props & Hi & Hid & Hbefore).
    rewrite Hi in Hform. injection Hform as <-.
    right. exists i, props, (spread_over props data).
    repeat split; auto. intros k. apply spread_over_assoc.
  - injection Hform as <-. now left.
Qed.

(** Saving the dialog of a new record stores the collection with one
    more record: the loaded ones, then a record of the form's fields
    under the generated [id]. *)
Theorem add_appends_one_record (fs fs' : fsys text) (file newId : string)
    (data : obj) (sent : list json) :
  save_record file None data newId fs = (Some sent, fs') ->
  exists old added stored,
    collection fs file = Return old
    /\ sent = (old ++ [JObj added])%list
    /\ assoc "id" added = Some (JStr newId)
    /\ (forall k, k <> "id" -> assoc k added = assoc k (rev data))
    /\ collection fs' file = Return stored
    /\ Permutation sent stored
    /\ length stored = S (length old).
Proof using stored_text_parses.
  unfold saveMutation. intros H.
  destruct (collection fs file) as [old|e] eqn:Hold; cbn [bind apply_form] in H;
    [|discriminate].
  apply save_collection_resolved in H as (-> & stored & Hsort & Hload).
  apply sort_records_perm in Hsort.
  exists old, (assign "id" (JStr newId) (spread_over [] data)), stored.
  split; [reflexivity|]. split; [reflexivity|].
  split; [apply assoc_assign|].
  split.
  { intros k Hk. rewrite assoc_assign_other by exact Hk.
    rewrite spread_over_assoc. now destruct (assoc k (rev data)). }
  split; [exact Hload|]. split; [exact Hsort|].
  rewrite <- Hsort, length_app. cbn. lia.
Qed.

(** The programs dialog keeps the collection within its limit: a
    mutation leaves at most four programs where there were at most four,
    an addition to four programs or more rejects before anything is
    sent, an addition that resolves has added one program, and an edit
    never changes the number. *)
Theorem program_dialog_keeps_limit (fs fs' : fsys text)
    (editing : option string) (data : obj) (newId : string)
    (outcome : option (list json)) (old : list json) :
  collection fs "programs.json" = Return old ->
  save_program editing data newId fs = (outcome, fs') ->
  exists stored,
    collection fs' "programs.json" = Return stored
    /\ (length old <= 4 -> length stored <= 4)
    /\ (editing = None -> 4 <= length old -> outcome = None /\ fs' = fs)
    /\ (editing = None -> outcome <> None -> length stored = S (length old))
    /\ (editing <> None -> length stored = length old).
Proof using stored_text_parses.
  intros Hold. unfold programSaveMutation. rewrite Hold.
  assert (Hsame : outcome = None -> fs' = fs ->
    exists stored,
      collection fs' "programs.json" = Return stored
      /\ (length old <= 4 -> length stored <= 4)
      /\ (editing = None -> 4 <= length old -> outcome = None /\ fs' = fs)
      /\ (editing = None -> outcome <> None -> length stored = S (length old))
      /\ (editing <> None -> length stored = length old)).
  { intros -> ->. exists old. repeat split; auto. congruence. }
  destruct (_ && _) eqn:Hfull; [intros [= <- <-]; now apply Hsame|].
  destruct (apply_form editing data newId old) as [updated|e] eqn:Hform;
    [|intros [= <- <-]; now apply Hsame].
  intros H. destruct outcome as [sent|];
    [|apply Hsame; [reflexivity | exact (save_collection_rejected _ _ _ _ H)]].
  apply save_collection_resolved in H as (-> & stored & Hsort & Hload).
  apply sort_records_length in Hsort.
  exists stored. split; [exact Hload|]. rewrite Hsort.
  destruct editing as [id|]; cbn [apply_form] in Hform; cbn [andb] in Hfull.
  - apply bind_Return in Hform as (found & _ & Hform).
    assert (Hlen : length updated = length old).
    { destruct found as [i|]; [|now injection Hform as <-].
      destruct (old !! i) as [[| | | | |props]|];
        injection Hform as <-; auto using length_insert. }
    rewrite Hlen. repeat split; auto; try discriminate.
  - injection Hform as <-. rewrite length_app. cbn.
    apply Nat.leb_gt in Hfull.
    repeat split; try lia; try congruence.
Qed.

(** The order of the news list is not kept: the dragged order is sent
    as it is, and what is stored and loaded again is the list by title,
    whatever the order sent. *)
Theorem news_order_is_by_title (fs fs' : fsys text) (orderedNews : list obj)
    (sent : list json) :
  collation_total localeCompare ->
  collation_transitive localeCompare ->
  Forall (fun article => record_with false (JObj article) = true) orderedNews ->
  save_news_order fs orderedNews = (Some sent, fs') ->
  exists stored,
    collection fs' "news.json" = Return stored
    /\ Permutation (JObj <$> orderedNews) stored
    /\ StronglySorted (title_le localeCompare) stored.
Proof using stored_text_parses.
  intros Htot Htrans Hrec H. unfold saveNewsOrder in H.
  apply save_collection_resolved in H as (-> & stored & Hsort & Hload).
  assert (Hrec' : Forall (fun m => record_with false m = true) (JObj <$> orderedNews)).
  { rewrite Forall_fmap. exact Hrec. }
  exists stored. split; [exact Hload|].
  split; [exact (sort_records_perm _ _ _ _ _ Hsort)|].
  apply sorted_untitled.
  - now rewrite <- (sort_records_perm _ _ _ _ _ Hsort).
  - exact (sort_records_sorted _ _ _ Htot Htrans false _ _ Hrec' Hsort).
Qed.
End ClientFacts.

(** ** The image fields of the admin page *)

Section ImageField.
Context {text : Type}.
Variable cwd : path.
Variable TOKEN : option string.
Variable DEV : bool.
Variable DEV_TOKEN : option string.

(** An image field stores its upload in [uploads/misc], whatever the
    category of the field: the category handed to [uploadImage] is not
    sent.  The address the field receives is the one of the stored
    file. *)
Theorem field_upload_lands_in_misc (category : string) (fs fs' : fsys text)
    (f : @upload_file text) (now : N) (url : option string) :
  handleFileChange cwd TOKEN DEV DEV_TOKEN category fs (Some f) now
    = (Uploaded url, fs') ->
  url = Some ("/uploads/misc/" +:+ filename f now)
  /\ path_join (PUBLIC_DIR cwd) ("/uploads/misc/" +:+ filename f now)
     = (UPLOAD_DIR cwd ++ ["misc"; filename f now])%list
  /\ fs' !! (UPLOAD_DIR cwd ++ ["misc"; filename f now])%list
     = Some (File (content_of f)).
Proof.
  unfold handleFileChange, uploadImage.
  destruct (negb (validateImageFile f)); [discriminate|].
  destruct (negb DEV); [discriminate|].
  destruct (post_upload _ _ _ _ _ _ _) as [r fs1] eqn:Hup.
  destruct (response_ok r) eqn:Hok; [|discriminate].
  intros [= <- <-].
  destruct (upload_stored cwd TOKEN fs fs1 _ None (Some f) now r eq_refl Hup Hok)
    as (f' & [= <-] & Hp & Hres & Hfile).
  rewrite Hp. repeat split; assumption.
Qed.
End ImageField.

(** ** The further properties at concrete requests *)

(** A photo uploaded for a member. *)
Lemma upload_public_path_resolves_witness :
  existsb (String.eqb (query_category (Some "members"))) allowedCategories = true
  /\ response_ok (fst (Sample.upload (Some "members") Ref.photo_upload)) = true
  /\ exists f publicPath,
       Some Ref.photo_upload = Some f
       /\ payload (fst (Sample.upload (Some "members") Ref.photo_upload))
          = OkPath publicPath
       /\ path_join (PUBLIC_DIR Ref.cwd) publicPath
          = (UPLOAD_DIR Ref.cwd
               ++ [query_category (Some "members"); filename f 1700000000000])%list
       /\ Sample.fs_with_photo !! path_join (PUBLIC_DIR Ref.cwd) publicPath
          = Some (File (content_of f)).
Proof.
  split; [reflexivity|]. split; [reflexivity|].
  apply (upload_public_path_resolves Ref.cwd Ref.token Ref.fs0 _
           (Some "secret") (Some "members") (Some Ref.photo_upload)
           1700000000000 _ eq_refl).
  - apply surjective_pairing.
  - reflexivity.
Defined.

(** The photo uploaded for a member, deleted by its public path. *)
Lemma upload_then_delete_witness :
  existsb (String.eqb (query_category (Some "members"))) allowedCategories = true
  /\ response_ok (fst (Sample.upload (Some "members") Ref.photo_upload)) = true
  /\ payload (fst (Sample.upload (Some "members") Ref.photo_upload))
     = OkPath Sample.photo_path
  /\ exists f,
       Some Ref.photo_upload = Some f
       /\ delete_upload Ref.cwd Sample.fs_with_photo (Some (JStr Sample.photo_path))
          = (Response 200 Ok_,
             delete (UPLOAD_DIR Ref.cwd
                       ++ [query_category (Some "members");
                           filename f 1700000000000])%list
               Sample.fs_with_photo).
Proof.
  split; [reflexivity|]. split; [reflexivity|]. split; [reflexivity|].
  apply (upload_then_delete Ref.cwd Ref.token Ref.fs0 Sample.fs_with_photo
           (Some "secret") (Some "members") (Some Ref.photo_upload)
           1700000000000 (fst (Sample.upload (Some "members") Ref.photo_upload))
           Sample.photo_path eq_refl).
  - apply surjective_pairing.
  - reflexivity.
  - reflexivity.
Defined.

(** A text file sent to the upload endpoint. *)
Lemma refused_upload_keeps_files_witness :
  response_ok (fst (Sample.upload (Some "members") Sample.notes_upload)) = false
  /\ forall p d,
       snd (Sample.upload (Some "members") Sample.notes_upload) !! p = Some (File d)
       <-> Ref.fs0 !! p = Some (File d).
Proof.
  split; [reflexivity|].
  apply (refused_upload_keeps_files Ref.cwd Ref.token Ref.fs0 _
           (Some "secret") (Some "members") (Some Sample.notes_upload)
           1700000000000
           (fst (Sample.upload (Some "members") Sample.notes_upload))).
  - apply surjective_pairing.
  - reflexivity.
Defined.

(** The same text file sent to the first version of the endpoint. *)
Lemma plain_upload_stores_any_type_witness :
  token_rejected Ref.token (Some "secret") = false
  /\ (fileSize_limit <? size Sample.notes_upload)%N = false
  /\ is_dir Ref.fs0 (UPLOAD_DIR Ref.cwd) = true
  /\ writable Ref.fs0 (path_join (UPLOAD_DIR Ref.cwd) "3f9a1c") = true
  /\ is_dir Ref.fs0
       (UPLOAD_DIR Ref.cwd ++ [newFilename Sample.notes_upload 1700000000000])%list
     = false
  /\ exists fs',
       post_upload_plain Ref.cwd Ref.token (Some "secret")
         (Some Sample.notes_upload) "3f9a1c" 1700000000000 Ref.fs0
       = (Response 200
            (OkPath ("/uploads/" +:+ newFilename Sample.notes_upload 1700000000000)),
          fs')
       /\ fs' !! path_join (PUBLIC_DIR Ref.cwd)
                   ("/uploads/" +:+ newFilename Sample.notes_upload 1700000000000)
          = Some (File (content_of Sample.notes_upload)).
Proof.
  repeat (split; [reflexivity|]).
  apply (plain_upload_stores_any_type Ref.cwd Ref.token Ref.fs0 (Some "secret")
           Sample.notes_upload "3f9a1c" 1700000000000); reflexivity.
Defined.

(** A photo of 4 KB. *)
Lemma client_validation_covers_server_checks_witness :
  validateImageFile Ref.photo_upload = true
  /\ allowedTypes_test (mimetype Ref.photo_upload) = true
  /\ (fileSize_limit <? size Ref.photo_upload)%N = false
  /\ fileFilter Ref.photo_upload
     = allowedTypes_test (toLowerCase (extname (originalname Ref.photo_upload))).
Proof.
  split; [reflexivity|].
  apply (client_validation_covers_server_checks Ref.photo_upload). reflexivity.
Defined.

(** The uploaded photo, deleted. *)
Lemma delete_removes_one_file_at_most_witness :
  snd (delete_upload Ref.cwd Sample.fs_with_photo (Some (JStr Sample.photo_path)))
    !! Sample.photo_file
  <> Sample.fs_with_photo !! Sample.photo_file
  /\ fst (delete_upload Ref.cwd Sample.fs_with_photo (Some (JStr Sample.photo_path)))
     = Response 200 Ok_
  /\ snd (delete_upload Ref.cwd Sample.fs_with_photo (Some (JStr Sample.photo_path)))
       !! Sample.photo_file = None
  /\ (exists d, Sample.fs_with_photo !! Sample.photo_file = Some (File d))
  /\ forall p', p' <> Sample.photo_file ->
       snd (delete_upload Ref.cwd Sample.fs_with_photo (Some (JStr Sample.photo_path)))
         !! p'
       = Sample.fs_with_photo !! p'.
Proof.
  assert (Hdiff :
    snd (delete_upload Ref.cwd Sample.fs_with_photo (Some (JStr Sample.photo_path)))
      !! Sample.photo_file
    <> Sample.fs_with_photo !! Sample.photo_file)
    by (vm_compute; discriminate).
  split; [exact Hdiff|].
  apply (delete_removes_one_file_at_most Ref.cwd Sample.fs_with_photo _
           (Some (JStr Sample.photo_path)) _ Sample.photo_file).
  - apply surjective_pairing.
  - exact Hdiff.
Defined.

(** The uploaded photo, deleted twice. *)
Lemma second_delete_not_found_witness :
  Sample.fs_with_photo !! [] = None
  /\ response_ok
       (fst (delete_upload Ref.cwd Sample.fs_with_photo
               (Some (JStr Sample.photo_path)))) = true
  /\ delete_upload Ref.cwd
       (snd (delete_upload Ref.cwd Sample.fs_with_photo
               (Some (JStr Sample.photo_path))))
       (Some (JStr Sample.photo_path))
     = (Response 404 (Error "file not found"),
        snd (delete_upload Ref.cwd Sample.fs_with_photo
               (Some (JStr Sample.photo_path)))).
Proof.
  split; [reflexivity|]. split; [reflexivity|].
  apply (second_delete_not_found Ref.cwd Sample.fs_with_photo _
           (Some (JStr Sample.photo_path))
           (fst (delete_upload Ref.cwd Sample.fs_with_photo
                   (Some (JStr Sample.photo_path))))).
  - reflexivity.
  - apply surjective_pairing.
  - reflexivity.
Defined.

(** Bob and Alice saved as members: the one file that changes. *)
Lemma save_confined_to_data_directory_witness :
  snd (Ref.post_save_json Ref.token (Some "secret") (Some (JStr "members.json"))
         (Some (JArr Ref.unordered_members)) Ref.fs0) !! Ref.members_file
  <> Ref.fs0 !! Ref.members_file
  /\ exists name,
       Some (JStr "members.json") = Some (JStr name)
       /\ endsWith name ".json" = true
       /\ Ref.members_file = (DATA_DIR Ref.cwd ++ [name])%list.
Proof.
  assert (Hdiff :
    snd (Ref.post_save_json Ref.token (Some "secret") (Some (JStr "members.json"))
           (Some (JArr Ref.unordered_members)) Ref.fs0) !! Ref.members_file
    <> Ref.fs0 !! Ref.members_file)
    by (vm_compute; discriminate).
  split; [exact Hdiff|].
  apply (save_confined_to_data_directory
           Ref.JSON_stringify Ref.JSON_stringify Ref.JSON_parse
           Ref.localeCompare Ref.coerced_sub Ref.ToString Ref.cwd Ref.token
           Ref.fs0
           (snd (Ref.post_save_json Ref.token (Some "secret")
                   (Some (JStr "members.json"))
                   (Some (JArr Ref.unordered_members)) Ref.fs0))
           (Some "secret") (Some (JStr "members.json"))
           (Some (JArr Ref.unordered_members))
           (fst (Ref.post_save_json Ref.token (Some "secret")
                   (Some (JStr "members.json"))
                   (Some (JArr Ref.unordered_members)) Ref.fs0))
           Ref.members_file).
  - apply surjective_pairing.
  - exact Hdiff.
Defined.

(** Bob and Alice saved through the first version of the endpoint. *)
Lemma plain_save_then_load_roundtrip_witness :
  parses_back Ref.JSON_stringify Ref.JSON_parse
  /\ response_ok
       (fst (Sample.save_json_plain (DATA_DIR Ref.cwd) Ref.fs0
               (Some (JStr "members.json")) (Some (JArr Ref.unordered_members))))
     = true
  /\ Ref.loadJsonData
       (snd (Sample.save_json_plain (DATA_DIR Ref.cwd) Ref.fs0
               (Some (JStr "members.json")) (Some (JArr Ref.unordered_members))))
       "members.json"
     = Return (JArr Ref.unordered_members).
Proof.
  split; [exact Ref_parses_back|]. split; [reflexivity|].
  apply (plain_save_then_load_roundtrip
           Ref.JSON_stringify Ref.JSON_stringify Ref.JSON_parse Ref.cwd
           Ref.fs0 _ "members.json" (JArr Ref.unordered_members)
           (fst (Sample.save_json_plain (DATA_DIR Ref.cwd) Ref.fs0
                   (Some (JStr "members.json"))
                   (Some (JArr Ref.unordered_members))))
           Ref_parses_back).
  - apply surjective_pairing.
  - reflexivity.
Defined.

(** The members of the site, and a save of other members through the
    stand-alone server: the save succeeds, the file is in
    [client/src/data], and the loader returns the members of the site. *)
Lemma standalone_save_not_seen_by_loader_witness :
  check_file (Some (JStr "members.json")) = Return (Some "members.json")
  /\ response_ok
       (fst (Sample.save_json_plain (SRC_DATA_DIR Ref.cwd) Sample.fs_standalone
               (Some (JStr "members.json")) (Some (JArr Ref.unordered_members))))
     = true
  /\ Ref.loadJsonData Sample.fs_standalone "members.json"
     = Return (JArr Ref.tied_members)
  /\ Ref.loadJsonData
       (snd (Sample.save_json_plain (SRC_DATA_DIR Ref.cwd) Sample.fs_standalone
               (Some (JStr "members.json")) (Some (JArr Ref.unordered_members))))
       "members.json"
     = Ref.loadJsonData Sample.fs_standalone "members.json"
  /\ (response_ok
        (fst (Sample.save_json_plain (SRC_DATA_DIR Ref.cwd) Sample.fs_standalone
                (Some (JStr "members.json")) (Some (JArr Ref.unordered_members))))
      = true ->
      exists saved c,
        Some (JStr "members.json") = Some (JStr saved)
        /\ Some (JArr Ref.unordered_members) = Some c
        /\ snd (Sample.save_json_plain (SRC_DATA_DIR Ref.cwd) Sample.fs_standalone
                  (Some (JStr "members.json")) (Some (JArr Ref.unordered_members)))
             !! (SRC_DATA_DIR Ref.cwd ++ [saved])%list
           = Some (File (Ref.JSON_stringify c))).
Proof.
  split; [reflexivity|]. split; [reflexivity|]. split; [reflexivity|].
  apply (standalone_save_not_seen_by_loader
           Ref.JSON_stringify Ref.JSON_stringify Ref.JSON_parse Ref.cwd
           Sample.fs_standalone (Some (JStr "members.json"))
           (Some (JArr Ref.unordered_members)) "members.json").
  reflexivity.
Defined.

(** A logout followed by a wrong password and a malformed login. *)
Lemma logged_out_until_next_login_witness :
  forallb (fun q => negb (successful_login q)) Sample.idle_requests = true
  /\ fst (auth_user (session_after (snd (logout Sample.logged_in))
                       Sample.idle_requests))
     = message 401 "Authentication required"
  /\ fst (auth_admin (session_after (snd (logout Sample.logged_in))
                        Sample.idle_requests))
     = message 401 "Authentication required".
Proof.
  split; [reflexivity|].
  apply (logged_out_until_next_login Sample.logged_in Sample.idle_requests).
  reflexivity.
Defined.

(** Carol, Bob and Alice saved, loaded and saved again. *)
Lemma resave_of_loaded_collection_changes_nothing_witness :
  collation_total Ref.localeCompare
  /\ collation_transitive Ref.localeCompare
  /\ parses_back Ref.JSON_stringify Ref.JSON_parse
  /\ Forall (fun m => record_with true m = true) Ref.tied_members
  /\ response_ok
       (fst (Ref.post_save_json Ref.token (Some "secret") (Some (JStr "members.json"))
               (Some (JArr Ref.tied_members)) Ref.fs0)) = true
  /\ exists loaded,
       Ref.loadJsonData
         (snd (Ref.post_save_json Ref.token (Some "secret")
                 (Some (JStr "members.json"))
                 (Some (JArr Ref.tied_members)) Ref.fs0))
         "members.json" = Return (JArr loaded)
       /\ Ref.post_save_json Ref.token (Some "secret") (Some (JStr "members.json"))
            (Some (JArr loaded))
            (snd (Ref.post_save_json Ref.token (Some "secret")
                    (Some (JStr "members.json"))
                    (Some (JArr Ref.tied_members)) Ref.fs0))
          = (fst (Ref.post_save_json Ref.token (Some "secret")
                    (Some (JStr "members.json"))
                    (Some (JArr Ref.tied_members)) Ref.fs0),
             snd (Ref.post_save_json Ref.token (Some "secret")
                    (Some (JStr "members.json"))
                    (Some (JArr Ref.tied_members)) Ref.fs0)).
Proof.
  assert (Hrec : Forall (fun m => record_with true m = true) Ref.tied_members)
    by (repeat constructor).
  split; [exact Ref_localeCompare_total|].
  split; [exact Ref_localeCompare_transitive|].
  split; [exact Ref_parses_back|]. split; [exact Hrec|]. split; [reflexivity|].
  apply (resave_of_loaded_collection_changes_nothing
           Ref.JSON_stringify Ref.JSON_stringify Ref.JSON_parse
           Ref.localeCompare Ref.coerced_sub Ref.ToString Ref.cwd Ref.token
           true Ref.fs0
           (snd (Ref.post_save_json Ref.token (Some "secret")
                   (Some (JStr "members.json"))
                   (Some (JArr Ref.tied_members)) Ref.fs0))
           (Some "secret") "members.json"
           Ref.tied_members
           (fst (Ref.post_save_json Ref.token (Some "secret")
                   (Some (JStr "members.json"))
                   (Some (JArr Ref.tied_members)) Ref.fs0))
           Ref_localeCompare_total Ref_localeCompare_transitive
           Ref_parses_back Ref_parses_back Hrec).
  - apply surjective_pairing.
  - reflexivity.
Defined.

(** The class [c2] deleted from three classes. *)
Lemma delete_removes_the_id_witness :
  parses_back Ref.JSON_stringify Ref.JSON_parse
  /\ fst (Sample.deleteMutation "memberClasses.json" "c2" Sample.fs_with_classes)
     = Some [Sample.officers; Sample.advisors]
  /\ exists old stored,
       Sample.load_collection Sample.fs_with_classes "memberClasses.json" = Return old
       /\ [Sample.officers; Sample.advisors]
          = List.filter (fun m => negb (has_id "c2" m)) old
       /\ Sample.load_collection
            (snd (Sample.deleteMutation "memberClasses.json" "c2"
                    Sample.fs_with_classes))
            "memberClasses.json" = Return stored
       /\ Permutation [Sample.officers; Sample.advisors] stored
       /\ forall m, In m stored <-> In m old /\ has_id "c2" m = false.
Proof.
  split; [exact Ref_parses_back|]. split; [reflexivity|].
  apply (delete_removes_the_id
           Ref.JSON_stringify Ref.JSON_stringify Ref.JSON_parse
           Ref.localeCompare Ref.coerced_sub Ref.ToString Ref.cwd Ref.token
           true (Some "secret") Ref_parses_back
           Sample.fs_with_classes
           (snd (Sample.deleteMutation "memberClasses.json" "c2"
                   Sample.fs_with_classes))
           "memberClasses.json" "c2" [Sample.officers; Sample.advisors]).
  reflexivity.
Defined.

(** The class [c2] edited in the dialog. *)
Lemma edit_changes_one_record_witness :
  parses_back Ref.JSON_stringify Ref.JSON_parse
  /\ fst (Sample.saveMutation "memberClasses.json" (Some "c2") Sample.alumni_form
            "1700000000000-k3j9x2a1b" Sample.fs_with_classes)
     = Some [Sample.officers; Sample.alumni_at_c2; Sample.advisors]
  /\ exists old stored,
       Sample.load_collection Sample.fs_with_classes "memberClasses.json" = Return old
       /\ Sample.load_collection
            (snd (Sample.saveMutation "memberClasses.json" (Some "c2")
                    Sample.alumni_form "1700000000000-k3j9x2a1b"
                    Sample.fs_with_classes))
            "memberClasses.json" = Return stored
       /\ Permutation [Sample.officers; Sample.alumni_at_c2; Sample.advisors] stored
       /\ ((Forall (fun m => has_id "c2" m = false) old
            /\ [Sample.officers; Sample.alumni_at_c2; Sample.advisors] = old)
           \/ exists i props edited,
                old !! i = Some (JObj props)
                /\ assoc "id" props = Some (JStr "c2")
                /\ Forall (fun m => has_id "c2" m = false) (take i old)
                /\ [Sample.officers; Sample.alumni_at_c2; Sample.advisors]
                   = <[i := JObj edited]> old
                /\ forall k, assoc k edited
                             = match assoc k (rev Sample.alumni_form) with
                               | Some v => Some v
                               | None => assoc k props
                               end).
Proof.
  split; [exact Ref_parses_back|]. split; [reflexivity|].
  apply (edit_changes_one_record
           Ref.JSON_stringify Ref.JSON_stringify Ref.JSON_parse
           Ref.localeCompare Ref.coerced_sub Ref.ToString Ref.cwd Ref.token
           true (Some "secret") Ref_parses_back
           Sample.fs_with_classes
           (snd (Sample.saveMutation "memberClasses.json" (Some "c2")
                   Sample.alumni_form "1700000000000-k3j9x2a1b"
                   Sample.fs_with_classes))
           "memberClasses.json" "c2" "1700000000000-k3j9x2a1b" Sample.alumni_form
           [Sample.officers; Sample.alumni_at_c2; Sample.advisors]).
  reflexivity.
Defined.

(** A fourth class added in the dialog. *)
Lemma add_appends_one_record_witness :
  parses_back Ref.JSON_stringify Ref.JSON_parse
  /\ fst (Sample.saveMutation "memberClasses.json" None Sample.alumni_form
            "1700000000000-k3j9x2a1b" Sample.fs_with_classes)
     = Some (Sample.classes ++ [Sample.alumni_new])%list
  /\ exists old added stored,
       Sample.load_collection Sample.fs_with_classes "memberClasses.json" = Return old
       /\ (Sample.classes ++ [Sample.alumni_new])%list = (old ++ [JObj added])%list
       /\ assoc "id" added = Some (JStr "1700000000000-k3j9x2a1b")
       /\ (forall k, k <> "id" -> assoc k added = assoc k (rev Sample.alumni_form))
       /\ Sample.load_collection
            (snd (Sample.saveMutation "memberClasses.json" None Sample.alumni_form
                    "1700000000000-k3j9x2a1b" Sample.fs_with_classes))
            "memberClasses.json" = Return stored
       /\ Permutation (Sample.classes ++ [Sample.alumni_new])%list stored
       /\ length stored = S (length old).
Proof.
  split; [exact Ref_parses_back|]. split; [reflexivity|].
  apply (add_appends_one_record
           Ref.JSON_stringify Ref.JSON_stringify Ref.JSON_parse
           Ref.localeCompare Ref.coerced_sub Ref.ToString Ref.cwd Ref.token
           true (Some "secret") Ref_parses_back
           Sample.fs_with_classes
           (snd (Sample.saveMutation "memberClasses.json" None Sample.alumni_form
                   "1700000000000-k3j9x2a1b" Sample.fs_with_classes))
           "memberClasses.json" "1700000000000-k3j9x2a1b" Sample.alumni_form
           (Sample.classes ++ [Sample.alumni_new])%list).
  reflexivity.
Defined.

(** A fifth program added in the dialog. *)
Lemma program_dialog_keeps_limit_witness :
  parses_back Ref.JSON_stringify Ref.JSON_parse
  /\ Sample.load_collection Sample.fs_with_programs "programs.json"
     = Return Sample.programs
  /\ exists stored,
       Sample.load_collection
         (snd (Sample.programSaveMutation None
                 (program_form "First aid" "" "A course" "" 4)
                 "1700000000000-k3j9x2a1b" Sample.fs_with_programs))
         "programs.json" = Return stored
       /\ (length Sample.programs <= 4 -> length stored <= 4)
       /\ (@None string = None -> 4 <= length Sample.programs ->
           fst (Sample.programSaveMutation None
                  (program_form "First aid" "" "A course" "" 4)
                  "1700000000000-k3j9x2a1b" Sample.fs_with_programs) = None
           /\ snd (Sample.programSaveMutation None
                     (program_form "First aid" "" "A course" "" 4)
                     "1700000000000-k3j9x2a1b" Sample.fs_with_programs)
              = Sample.fs_with_programs)
       /\ (@None string = None ->
           fst (Sample.programSaveMutation None
                  (program_form "First aid" "" "A course" "" 4)
                  "1700000000000-k3j9x2a1b" Sample.fs_with_programs) <> None ->
           length stored = S (length Sample.programs))
       /\ (@None string <> None -> length stored = length Sample.programs).
Proof.
  split; [exact Ref_parses_back|]. split; [reflexivity|].
  apply (program_dialog_keeps_limit
           Ref.JSON_stringify Ref.JSON_stringify Ref.JSON_parse
           Ref.localeCompare Ref.coerced_sub Ref.ToString Ref.cwd Ref.token
           true (Some "secret") Ref_parses_back
           Sample.fs_with_programs
           (snd (Sample.programSaveMutation None
                   (program_form "First aid" "" "A course" "" 4)
                   "1700000000000-k3j9x2a1b" Sample.fs_with_programs))
           None (program_form "First aid" "" "A course" "" 4)
           "1700000000000-k3j9x2a1b"
           (fst (Sample.programSaveMutation None
                   (program_form "First aid" "" "A course" "" 4)
                   "1700000000000-k3j9x2a1b" Sample.fs_with_programs))
           Sample.programs).
  - reflexivity.
  - apply surjective_pairing.
Defined.

(** Three articles dragged into another order. *)
Lemma news_order_is_by_title_witness :
  parses_back Ref.JSON_stringify Ref.JSON_parse
  /\ collation_total Ref.localeCompare
  /\ collation_transitive Ref.localeCompare
  /\ Forall (fun article => record_with false (JObj article) = true)
       Sample.dragged_news
  /\ fst (Sample.saveNewsOrder Ref.fs0 Sample.dragged_news)
     = Some (JObj <$> Sample.dragged_news)
  /\ exists stored,
       Sample.load_collection
         (snd (Sample.saveNewsOrder Ref.fs0 Sample.dragged_news)) "news.json"
       = Return stored
       /\ Permutation (JObj <$> Sample.dragged_news) stored
       /\ StronglySorted (title_le Ref.localeCompare) stored.
Proof.
  assert (Hrec : Forall (fun article => record_with false (JObj article) = true)
                   Sample.dragged_news)
    by (repeat constructor).
  split; [exact Ref_parses_back|].
  split; [exact Ref_localeCompare_total|].
  split; [exact Ref_localeCompare_transitive|].
  split; [exact Hrec|]. split; [reflexivity|].
  apply (news_order_is_by_title
           Ref.JSON_stringify Ref.JSON_stringify Ref.JSON_parse
           Ref.localeCompare Ref.coerced_sub Ref.ToString Ref.cwd Ref.token
           true (Some "secret") Ref_parses_back
           Ref.fs0 (snd (Sample.saveNewsOrder Ref.fs0 Sample.dragged_news))
           Sample.dragged_news (JObj <$> Sample.dragged_news)
           Ref_localeCompare_total Ref_localeCompare_transitive Hrec).
  reflexivity.
Defined.

(** The photo of a member, chosen in the image field of the member
    dialog. *)
Lemma field_upload_lands_in_misc_witness :
  fst (Sample.handleFileChange "members" Ref.fs0 (Some Ref.photo_upload)
         1700000000000)
  = Uploaded (Some "/uploads/misc/photo-1700000000000.png")
  /\ Some "/uploads/misc/photo-1700000000000.png"
     = Some ("/uploads/misc/" +:+ filename Ref.photo_upload 1700000000000)
  /\ path_join (PUBLIC_DIR Ref.cwd)
       ("/uploads/misc/" +:+ filename Ref.photo_upload 1700000000000)
     = (UPLOAD_DIR Ref.cwd ++ ["misc"; filename Ref.photo_upload 1700000000000])%list
  /\ snd (Sample.handleFileChange "members" Ref.fs0 (Some Ref.photo_upload)
            1700000000000)
     !! (UPLOAD_DIR Ref.cwd ++ ["misc"; filename Ref.photo_upload 1700000000000])%list
     = Some (File (content_of Ref.photo_upload)).
Proof.
  split; [reflexivity|].
  apply (field_upload_lands_in_misc Ref.cwd Ref.token true (Some "secret")
           "members" Ref.fs0
           (snd (Sample.handleFileChange "members" Ref.fs0 (Some Ref.photo_upload)
                   1700000000000))
           Ref.photo_upload 1700000000000
           (Some "/uploads/misc/photo-1700000000000.png")).
  reflexivity.
Defined.
